(** * supabase-client.js: the client gateway and its three function groups

    A shallow embedding of [src/supabase-client.js].  The module exports three
    groups of async functions ([authAPI], [contentAPI], [adminAPI]); each one
    awaits calls on the remote platform inside a [try]/[catch] and returns an
    outcome object with a [data] and an [error] property.

    The remote platform is not part of the module.  The client code is
    therefore written once against an arbitrary [Host] (what every awaited
    call settles to, the clock and the browser global), and a reference
    platform is given afterwards for the statements that speak about the
    stored rows. *)

From Stdlib Require Import List String Ascii Bool ZArith Lia Sorted Permutation.
From Stdlib Require OrderedTypeEx.
Import ListNotations.
Open Scope string_scope.
Set Warnings "-register-all".

(** ** JavaScript values *)

(** The values that flow through the module: what the platform answers, what
    the caller passes, what the functions return.  Numbers are the
    integer-valued ones (no column of the three tables is numeric). *)
Inductive jsval : Type :=
| JUndefined
| JNull
| JBool (b : bool)
| JNum (n : Z)
| JStr (s : string)
| JArr (items : list jsval)
| JObj (fields : list (string * jsval)).

(** [if (v)]: the values that are not falsy. *)
Definition truthy (v : jsval) : bool :=
  match v with
  | JUndefined | JNull => false
  | JBool b => b
  | JNum n => negb (n =? 0)%Z
  | JStr s => negb (s =? "")
  | JArr _ | JObj _ => true
  end.

(** [v == null]: the two values whose properties cannot be read. *)
Definition nullish (v : jsval) : bool :=
  match v with
  | JUndefined | JNull => true
  | _ => false
  end.

Fixpoint field (k : string) (fs : list (string * jsval)) : jsval :=
  match fs with
  | [] => JUndefined
  | (k', v) :: rest => if k =? k' then v else field k rest
  end.

(** [v.k] for a [v] that is not nullish; an absent property reads as
    [undefined].  Only own data properties are modelled (the module reads
    [data], [error], [user], [id], [role] and [code], none of which is a
    built-in of strings or arrays). *)
Definition prop (v : jsval) (k : string) : jsval :=
  match v with
  | JObj fs => field k fs
  | _ => JUndefined
  end.

(** [v !== 'lit'], the comparison with a string literal. *)
Definition strict_neq_str (v : jsval) (lit : string) : bool :=
  match v with
  | JStr s => negb (s =? lit)
  | _ => true
  end.

(** An [Error] instance, by its name and message. *)
Definition js_error (name message : string) : jsval :=
  JObj [("name", JStr name); ("message", JStr message)].

(** [new Error(message)] *)
Definition new_Error (message : string) : jsval := js_error "Error" message.

Definition show_nullish (v : jsval) : string :=
  match v with
  | JNull => "null"
  | _ => "undefined"
  end.

(** The [TypeError] raised by reading property [k] of [null] or [undefined]
    (the message is the engine's; V8's wording is used). *)
Definition type_error (v : jsval) (k : string) : jsval :=
  js_error "TypeError"
    ("Cannot read properties of " ++ show_nullish v ++ " (reading '" ++ k ++ "')").

(** The [ReferenceError] raised by naming the global [window] outside a
    browser. *)
Definition reference_error (name : string) : jsval :=
  js_error "ReferenceError" (name ++ " is not defined").

(** The outcome objects the functions build: [{ data, error }] and, for
    [signOut], [{ error }]. *)
Definition outcome (data error : jsval) : jsval :=
  JObj [("data", data); ("error", error)].

Definition outcome_error_only (error : jsval) : jsval :=
  JObj [("error", error)].

(** ** The query builder *)

(** What [supabase.from(table)] followed by the chained builder calls
    describes.  Nothing is sent before the builder is awaited. *)
Inductive action : Type :=
| NoAction
| Select (columns : string)
| Upsert (values : jsval) (onConflict : string) (ignoreDuplicates : bool)
| Update (values : jsval).

Record query : Type := mkQuery {
  q_from : string;
  q_action : action;
  q_eq : list (string * jsval);
  q_order : option (string * bool);
  q_limit : option nat;
  q_single : bool
}.

Definition from (table : string) : query :=
  mkQuery table NoAction [] None None false.

Definition select (columns : string) (q : query) : query :=
  mkQuery (q_from q) (Select columns) (q_eq q) (q_order q) (q_limit q) (q_single q).

Definition upsert (values : jsval) (onConflict : string) (ignoreDuplicates : bool)
    (q : query) : query :=
  mkQuery (q_from q) (Upsert values onConflict ignoreDuplicates)
    (q_eq q) (q_order q) (q_limit q) (q_single q).

Definition update (values : jsval) (q : query) : query :=
  mkQuery (q_from q) (Update values) (q_eq q) (q_order q) (q_limit q) (q_single q).

Definition eq (column : string) (value : jsval) (q : query) : query :=
  mkQuery (q_from q) (q_action q) (q_eq q ++ [(column, value)])
    (q_order q) (q_limit q) (q_single q).

Definition order (column : string) (ascending : bool) (q : query) : query :=
  mkQuery (q_from q) (q_action q) (q_eq q) (Some (column, ascending))
    (q_limit q) (q_single q).

Definition limit (count : nat) (q : query) : query :=
  mkQuery (q_from q) (q_action q) (q_eq q) (q_order q) (Some count) (q_single q).

Definition single (q : query) : query :=
  mkQuery (q_from q) (q_action q) (q_eq q) (q_order q) (q_limit q) true.

Notation "q |> f" := (f q) (at level 45, left associativity, only parsing).

(** ** Remote calls *)

(** The calls the module awaits on the client handle. *)
Inductive request : Type :=
| AuthSignUp (credentials : jsval)
| AuthSignInWithPassword (credentials : jsval)
| AuthSignOut
| AuthGetSession
| AuthGetUser
| AuthResetPasswordForEmail (email : jsval) (options : jsval)
| Query (q : query).

(** What an awaited call settles to. *)
Inductive reply : Type :=
| Fulfilled (v : jsval)
| Rejected (reason : jsval).

(** Everything outside the module: the platform behind the client handle,
    [new Date().toISOString()] and [window.location.origin] ([None] when
    there is no [window]). *)
Record Host (W : Type) : Type := mkHost {
  serve : request -> W -> reply * W;
  date_now : W -> string * W;
  window_origin : W -> option string
}.
Arguments serve {W} _ _ _.
Arguments date_now {W} _ _.
Arguments window_origin {W} _ _.

(** ** The monad of an async function body *)

(** The state threaded through a call: the outside world, the remote calls
    issued so far (oldest first) and the lines written by [console.error]. *)
Record state (W : Type) : Type := mkState {
  world : W;
  calls : list request;
  console : list (string * jsval)
}.
Arguments mkState {W} _ _ _.
Arguments world {W} _.
Arguments calls {W} _.
Arguments console {W} _.

Inductive completion (A : Type) : Type :=
| Returned (a : A)
| Thrown (e : jsval).
Arguments Returned {A} _.
Arguments Thrown {A} _.

Definition M (W A : Type) : Type := state W -> completion A * state W.

Definition ret {W A} (a : A) : M W A := fun s => (Returned a, s).

Definition throw {W A} (e : jsval) : M W A := fun s => (Thrown e, s).

Definition bind {W A B} (m : M W A) (k : A -> M W B) : M W B :=
  fun s =>
    match m s with
    | (Returned a, s') => k a s'
    | (Thrown e, s') => (Thrown e, s')
    end.

Notation "x <- m ;; k" := (bind m (fun x => k))
  (at level 61, m at next level, right associativity).
Notation "m ;;; k" := (bind m (fun _ => k))
  (at level 61, right associativity).

(** [try { body } catch (error) { handler }] *)
Definition try_catch {W A} (body : M W A) (handler : jsval -> M W A) : M W A :=
  fun s =>
    match body s with
    | (Returned a, s') => (Returned a, s')
    | (Thrown e, s') => handler e s'
    end.

(** [await] of a call on the client handle: a rejection is thrown. *)
Definition await {W} (H : Host W) (r : request) : M W jsval :=
  fun s =>
    let (answer, w') := serve H r (world s) in
    let s' := mkState w' (calls s ++ [r]) (console s) in
    match answer with
    | Fulfilled v => (Returned v, s')
    | Rejected e => (Thrown e, s')
    end.

(** [v.k], also the reading done by a destructuring pattern. *)
Definition get {W} (v : jsval) (k : string) : M W jsval :=
  if nullish v then throw (type_error v k) else ret (prop v k).

(** [console.error(label, v)] *)
Definition console_error {W} (label : string) (v : jsval) : M W unit :=
  fun s => (Returned tt, mkState (world s) (calls s) (console s ++ [(label, v)])).

(** [new Date().toISOString()] *)
Definition now_iso {W} (H : Host W) : M W string :=
  fun s =>
    let (t, w') := date_now H (world s) in
    (Returned t, mkState w' (calls s) (console s)).

(** [window.location.origin] *)
Definition origin {W} (H : Host W) : M W string :=
  fun s =>
    match window_origin H (world s) with
    | Some o => (Returned o, s)
    | None => (Thrown (reference_error "window"), s)
    end.

(** [if (error) throw error; return { data, error: null }] *)
Definition check_and_return {W} (data error : jsval) : M W jsval :=
  if truthy error then throw error else ret (outcome data JNull).

(** [catch (error) { console.error(label, error); return { data: null, error } }] *)
Definition report {W} (label : string) (error : jsval) : M W jsval :=
  console_error label error ;;; ret (outcome JNull error).

(** ** Loading the module *)

(** The error thrown when the connection settings are not both present. *)
Definition missing_configuration : jsval :=
  new_Error
    "Las variables de entorno NEXT_PUBLIC_SUPABASE_URL y NEXT_PUBLIC_SUPABASE_ANON_KEY deben estar definidas".

(** The third argument of [createClient]. *)
Definition client_options : jsval :=
  JObj [("auth", JObj [("autoRefreshToken", JBool true);
                       ("persistSession", JBool true);
                       ("detectSessionInUrl", JBool true)]);
        ("global", JObj [("headers",
                          JObj [("x-application-name", JStr "gestion-residuos-app")])])].

(** A client handle, by the arguments [createClient] received. *)
Record client : Type := mkClient {
  client_url : jsval;
  client_key : jsval;
  client_settings : jsval
}.

(** A variable of [process.env]: a string, or [undefined] when it is not
    set. *)
Definition env_value (v : option string) : jsval :=
  match v with
  | Some s => JStr s
  | None => JUndefined
  end.

(** The top level of the module: the two settings are checked, then
    [createClient] is called with them and the fixed options.  [createClient]
    belongs to the platform's library: it is a parameter, and it may itself
    throw. *)
Definition load_module {C : Type}
    (createClient : jsval -> jsval -> jsval -> completion C)
    (supabaseUrl supabaseAnonKey : jsval) : completion C :=
  if negb (truthy supabaseUrl) || negb (truthy supabaseAnonKey)
  then Thrown missing_configuration
  else createClient supabaseUrl supabaseAnonKey client_options.

(** ** authAPI *)

Module authAPI.

Definition signUp {W} (H : Host W) (email password userMetadata : jsval) : M W jsval :=
  let userMetadata :=
    match userMetadata with JUndefined => JObj [] | _ => userMetadata end in
  try_catch
    (r <- await H (AuthSignUp (JObj [("email", email); ("password", password);
                                     ("options", JObj [("data", userMetadata)])])) ;;
     data <- get r "data" ;;
     error <- get r "error" ;;
     check_and_return data error)
    (report "Error en signUp:").

Definition signIn {W} (H : Host W) (email password : jsval) : M W jsval :=
  try_catch
    (r <- await H (AuthSignInWithPassword
                     (JObj [("email", email); ("password", password)])) ;;
     data <- get r "data" ;;
     error <- get r "error" ;;
     check_and_return data error)
    (report "Error en signIn:").

Definition signOut {W} (H : Host W) : M W jsval :=
  try_catch
    (r <- await H AuthSignOut ;;
     error <- get r "error" ;;
     if truthy error then throw error else ret (outcome_error_only JNull))
    (fun error =>
       console_error "Error en signOut:" error ;;;
       ret (outcome_error_only error)).

Definition getSession {W} (H : Host W) : M W jsval :=
  try_catch
    (r <- await H AuthGetSession ;;
     data <- get r "data" ;;
     error <- get r "error" ;;
     check_and_return data error)
    (report "Error en getSession:").

Definition getUser {W} (H : Host W) : M W jsval :=
  try_catch
    (r <- await H AuthGetUser ;;
     data <- get r "data" ;;
     error <- get r "error" ;;
     check_and_return data error)
    (report "Error en getUser:").

Definition resetPassword {W} (H : Host W) (email : jsval) : M W jsval :=
  try_catch
    (o <- origin H ;;
     r <- await H (AuthResetPasswordForEmail email
                     (JObj [("redirectTo", JStr (o ++ "/update-password"))])) ;;
     data <- get r "data" ;;
     error <- get r "error" ;;
     check_and_return data error)
    (report "Error en resetPassword:").

End authAPI.

(** ** contentAPI *)

Module contentAPI.

Definition save_query (pageName content user_id : jsval) (stamp : string) : query :=
  from "paginas"
    |> upsert (JObj [("nombre", pageName);
                     ("contenido_html", content);
                     ("usuario_id", user_id);
                     ("actualizado_en", JStr stamp)])
              "nombre" false.

Definition load_query (pageName : jsval) : query :=
  from "paginas"
    |> select "contenido_html, actualizado_en"
    |> eq "nombre" pageName
    |> single.

Definition history_query (pageName : jsval) : query :=
  from "pagina_historial"
    |> select "contenido_html, actualizado_en, usuario_id"
    |> eq "nombre_pagina" pageName
    |> order "actualizado_en" false
    |> limit 10.

Definition savePageContent {W} (H : Host W) (pageName content : jsval) : M W jsval :=
  try_catch
    (r <- authAPI.getUser H ;;
     userData <- get r "data" ;;
     user <- get userData "user" ;;
     if negb (truthy user) then throw (new_Error "Usuario no autenticado") else
     user_id <- get user "id" ;;
     stamp <- now_iso H ;;
     r <- await H (Query (save_query pageName content user_id stamp)) ;;
     data <- get r "data" ;;
     error <- get r "error" ;;
     check_and_return data error)
    (report "Error en savePageContent:").

Definition loadPageContent {W} (H : Host W) (pageName : jsval) : M W jsval :=
  try_catch
    (r <- await H (Query (load_query pageName)) ;;
     data <- get r "data" ;;
     error <- get r "error" ;;
     other <- (if truthy error
               then code <- get error "code" ;; ret (strict_neq_str code "PGRST116")
               else ret false) ;;
     if other then throw error else ret (outcome data JNull))
    (report "Error en loadPageContent:").

Definition getPageHistory {W} (H : Host W) (pageName : jsval) : M W jsval :=
  try_catch
    (r <- await H (Query (history_query pageName)) ;;
     data <- get r "data" ;;
     error <- get r "error" ;;
     check_and_return data error)
    (report "Error en getPageHistory:").

End contentAPI.

(** ** adminAPI *)

Module adminAPI.

Definition role_query (user_id : jsval) : query :=
  from "profiles" |> select "role" |> eq "id" user_id |> single.

Definition users_query : query :=
  from "profiles" |> select "id, email, role, created_at" |> order "created_at" false.

Definition update_role_query (userId newRole : jsval) : query :=
  from "profiles" |> update (JObj [("role", newRole)]) |> eq "id" userId.

Definition getUsers {W} (H : Host W) : M W jsval :=
  try_catch
    (r <- authAPI.getUser H ;;
     userData <- get r "data" ;;
     user <- get userData "user" ;;
     if negb (truthy user) then throw (new_Error "No autenticado") else
     user_id <- get user "id" ;;
     r <- await H (Query (role_query user_id)) ;;
     profile <- get r "data" ;;
     role <- get profile "role" ;;
     if strict_neq_str role "admin" then throw (new_Error "No autorizado") else
     r <- await H (Query users_query) ;;
     data <- get r "data" ;;
     error <- get r "error" ;;
     check_and_return data error)
    (report "Error en getUsers:").

Definition updateUserRole {W} (H : Host W) (userId newRole : jsval) : M W jsval :=
  try_catch
    (r <- authAPI.getUser H ;;
     userData <- get r "data" ;;
     user <- get userData "user" ;;
     if negb (truthy user) then throw (new_Error "No autenticado") else
     user_id <- get user "id" ;;
     r <- await H (Query (role_query user_id)) ;;
     profile <- get r "data" ;;
     role <- get profile "role" ;;
     if strict_neq_str role "admin" then throw (new_Error "No autorizado") else
     r <- await H (Query (update_role_query userId newRole)) ;;
     data <- get r "data" ;;
     error <- get r "error" ;;
     check_and_return data error)
    (report "Error en updateUserRole:").

End adminAPI.

(** The exposed surface: one constructor per exported function, with its
    arguments. *)
Inductive operation : Type :=
| SignUp (email password userMetadata : jsval)
| SignIn (email password : jsval)
| SignOut
| GetSession
| GetUser
| ResetPassword (email : jsval)
| SavePageContent (pageName content : jsval)
| LoadPageContent (pageName : jsval)
| GetPageHistory (pageName : jsval)
| GetUsers
| UpdateUserRole (userId newRole : jsval).

Definition invoke {W} (H : Host W) (op : operation) : M W jsval :=
  match op with
  | SignUp email password userMetadata => authAPI.signUp H email password userMetadata
  | SignIn email password => authAPI.signIn H email password
  | SignOut => authAPI.signOut H
  | GetSession => authAPI.getSession H
  | GetUser => authAPI.getUser H
  | ResetPassword email => authAPI.resetPassword H email
  | SavePageContent pageName content => contentAPI.savePageContent H pageName content
  | LoadPageContent pageName => contentAPI.loadPageContent H pageName
  | GetPageHistory pageName => contentAPI.getPageHistory H pageName
  | GetUsers => adminAPI.getUsers H
  | UpdateUserRole userId newRole => adminAPI.updateUserRole H userId newRole
  end.

(** ** The reference platform *)

(** Modelled from the spec: the hosted platform behind the client handle
    (authentication, the three tables and the query interface) is a vendor
    service, absent from the module.  The spec describes it: the tables
    [paginas], [pagina_historial] and [profiles] with their columns, the
    unique page name with overwrite on collision, the history read newest
    first and capped, the role update written through without validation,
    the "no rows" error code of a single-row fetch, and the null user of an
    unauthenticated [getUser].  All columns are text (timestamps are the ISO
    strings the module writes, whose alphabetical order is the order of
    time). *)
Record page : Type := mkPage {
  nombre : string;
  contenido_html : string;
  usuario_id : string;
  actualizado_en : string
}.

(** Modelled from the spec: a row of [pagina_historial]. *)
Record history_entry : Type := mkHistory {
  nombre_pagina : string;
  h_contenido_html : string;
  h_actualizado_en : string;
  h_usuario_id : string
}.

(** Modelled from the spec: a row of [profiles]. *)
Record profile : Type := mkProfile {
  profile_id : string;
  email : string;
  role : string;
  created_at : string
}.

(** Modelled from the spec: a principal known to the authentication service. *)
Record account : Type := mkAccount {
  user_id : string;
  user_email : string;
  user_password : string;
  user_metadata : jsval
}.

(** Modelled from the spec: what a table offers to the query interface: its
    column names, reading and writing a column of a row, and the empty row. *)
Class Table (R : Type) : Type := {
  columns : list string;
  read : R -> string -> string;
  write : string -> string -> R -> R;
  blank : R
}.

(** Modelled from the spec: the table [paginas] and its four columns. *)
#[export] Instance page_table : Table page := {
  columns := ["nombre"; "contenido_html"; "usuario_id"; "actualizado_en"];
  read r c :=
    if c =? "nombre" then nombre r
    else if c =? "contenido_html" then contenido_html r
    else if c =? "usuario_id" then usuario_id r
    else if c =? "actualizado_en" then actualizado_en r
    else "";
  write c v r :=
    if c =? "nombre" then mkPage v (contenido_html r) (usuario_id r) (actualizado_en r)
    else if c =? "contenido_html" then mkPage (nombre r) v (usuario_id r) (actualizado_en r)
    else if c =? "usuario_id" then mkPage (nombre r) (contenido_html r) v (actualizado_en r)
    else if c =? "actualizado_en" then mkPage (nombre r) (contenido_html r) (usuario_id r) v
    else r;
  blank := mkPage "" "" "" ""
}.

(** Modelled from the spec: the table [pagina_historial] and its four columns. *)
#[export] Instance history_table : Table history_entry := {
  columns := ["nombre_pagina"; "contenido_html"; "actualizado_en"; "usuario_id"];
  read r c :=
    if c =? "nombre_pagina" then nombre_pagina r
    else if c =? "contenido_html" then h_contenido_html r
    else if c =? "actualizado_en" then h_actualizado_en r
    else if c =? "usuario_id" then h_usuario_id r
    else "";
  write c v r :=
    if c =? "nombre_pagina"
    then mkHistory v (h_contenido_html r) (h_actualizado_en r) (h_usuario_id r)
    else if c =? "contenido_html"
    then mkHistory (nombre_pagina r) v (h_actualizado_en r) (h_usuario_id r)
    else if c =? "actualizado_en"
    then mkHistory (nombre_pagina r) (h_contenido_html r) v (h_usuario_id r)
    else if c =? "usuario_id"
    then mkHistory (nombre_pagina r) (h_contenido_html r) (h_actualizado_en r) v
    else r;
  blank := mkHistory "" "" "" ""
}.

(** Modelled from the spec: the table [profiles] and its four columns. *)
#[export] Instance profile_table : Table profile := {
  columns := ["id"; "email"; "role"; "created_at"];
  read r c :=
    if c =? "id" then profile_id r
    else if c =? "email" then email r
    else if c =? "role" then role r
    else if c =? "created_at" then created_at r
    else "";
  write c v r :=
    if c =? "id" then mkProfile v (email r) (role r) (created_at r)
    else if c =? "email" then mkProfile (profile_id r) v (role r) (created_at r)
    else if c =? "role" then mkProfile (profile_id r) (email r) v (created_at r)
    else if c =? "created_at" then mkProfile (profile_id r) (email r) (role r) v
    else r;
  blank := mkProfile "" "" "" ""
}.

(** Modelled from the spec: an error reported by the platform, with its code. *)
Definition platform_error (code message : string) : jsval :=
  JObj [("code", JStr code); ("message", JStr message)].

(** Modelled from the spec: the error of a single-row fetch that did not find
    exactly one row. *)
Definition no_rows_error : jsval :=
  platform_error "PGRST116" "JSON object requested, multiple (or no) rows returned".

(** Modelled from the spec: the column list of a [select], split at the commas
    with the blanks dropped. *)
Fixpoint split_columns_from (s : string) (current : string) : list string :=
  match s with
  | EmptyString => [current]
  | String c rest =>
      if Ascii.eqb c "," then current :: split_columns_from rest ""
      else if Ascii.eqb c " " then split_columns_from rest current
      else split_columns_from rest (current ++ String c "")
  end.

(** Modelled from the spec: the columns named by the argument of [select]. *)
Definition split_columns (s : string) : list string := split_columns_from s "".

(** Modelled from the spec: a row put at its place among ordered rows. *)
Fixpoint insert_by {R} (le : R -> R -> bool) (x : R) (l : list R) : list R :=
  match l with
  | [] => [x]
  | y :: rest => if le x y then x :: y :: rest else y :: insert_by le x rest
  end.

(** Modelled from the spec: the rows in the order [le], for [order]. *)
Fixpoint sort_by {R} (le : R -> R -> bool) (l : list R) : list R :=
  match l with
  | [] => []
  | x :: rest => insert_by le x (sort_by le rest)
  end.

Section Exec.
Context {R : Type} `{Table R}.

(** Modelled from the spec: [c] is a column of the table. *)
Definition known (c : string) : bool := existsb (String.eqb c) columns.

(** Modelled from the spec: the pairs of a values object or of a filter list,
    when every column is known and every value is a string. *)
Fixpoint texts (fs : list (string * jsval)) : option (list (string * string)) :=
  match fs with
  | [] => Some []
  | (c, JStr v) :: rest =>
      if known c
      then match texts rest with
           | Some ts => Some ((c, v) :: ts)
           | None => None
           end
      else None
  | _ :: _ => None
  end.

(** Modelled from the spec: the row passes every [eq] filter. *)
Definition matches (filters : list (string * string)) (r : R) : bool :=
  forallb (fun cv => read r (fst cv) =? snd cv) filters.

(** Modelled from the spec: the row with the given columns overwritten. *)
Definition write_all (values : list (string * string)) (r : R) : R :=
  fold_left (fun r cv => write (fst cv) (snd cv) r) values r.

(** Modelled from the spec: the object returned for a row, with the selected
    columns. *)
Definition render (cols : list string) (r : R) : jsval :=
  JObj (map (fun c => (c, JStr (read r c))) cols).

(** Modelled from the spec: the comparison of [order(c, { ascending })]. *)
Definition order_le (c : string) (ascending : bool) (a b : R) : bool :=
  if ascending then read a c <=? read b c else read b c <=? read a c.

(** Modelled from the spec: the rows after the requested ordering, if any. *)
Definition ordered (o : option (string * bool)) (rows : list R) : list R :=
  match o with
  | Some (c, ascending) => sort_by (order_le c ascending) rows
  | None => rows
  end.

(** Modelled from the spec: the rows after the requested cap, if any. *)
Definition limited (n : option nat) (rows : list R) : list R :=
  match n with
  | Some k => firstn k rows
  | None => rows
  end.

(** Modelled from the spec: the ordering column, if any, exists. *)
Definition order_known (o : option (string * bool)) : bool :=
  match o with
  | Some (c, _) => known c
  | None => true
  end.

(** Modelled from the spec: the answer to a query the platform refuses; the
    rows are untouched. *)
Definition rejected_query (rows : list R) (code message : string) : jsval * list R :=
  (outcome JNull (platform_error code message), rows).

(** Modelled from the spec: what the platform answers to an awaited query
    on a table, and the rows of the table afterwards.  A write that asks for
    no rows back answers with [data: null]. *)
Definition exec (q : query) (rows : list R) : jsval * list R :=
  match texts (q_eq q) with
  | None => rejected_query rows "22P02" "invalid filter"
  | Some filters =>
      match q_action q with
      | NoAction => rejected_query rows "PGRST100" "no action"
      | Select cols =>
          let cs := split_columns cols in
          if forallb known cs && order_known (q_order q) then
            let hits :=
              limited (q_limit q) (ordered (q_order q) (filter (matches filters) rows)) in
            if q_single q then
              match hits with
              | [r] => (outcome (render cs r) JNull, rows)
              | _ => (outcome JNull no_rows_error, rows)
              end
            else (outcome (JArr (map (render cs) hits)) JNull, rows)
          else rejected_query rows "42703" "column does not exist"
      | Update values =>
          match values with
          | JObj fs =>
              match texts fs with
              | Some vs =>
                  (outcome JNull JNull,
                   map (fun r => if matches filters r then write_all vs r else r) rows)
              | None => rejected_query rows "22P02" "invalid values"
              end
          | _ => rejected_query rows "22P02" "invalid values"
          end
      | Upsert values onConflict ignoreDuplicates =>
          match values with
          | JObj fs =>
              match texts fs with
              | Some vs =>
                  if known onConflict
                     && forallb (fun c => existsb (fun cv => c =? fst cv) vs) columns
                  then
                    let fresh := write_all vs blank in
                    let clash r := read r onConflict =? read fresh onConflict in
                    (outcome JNull JNull,
                     if existsb clash rows
                     then if ignoreDuplicates then rows
                          else map (fun r => if clash r then write_all vs r else r) rows
                     else (rows ++ [fresh])%list)
                  else rejected_query rows "23502" "missing column"
              | None => rejected_query rows "22P02" "invalid values"
              end
          | _ => rejected_query rows "22P02" "invalid values"
          end
      end
  end.

End Exec.

(** Modelled from the spec: the state of the platform and of the browser:
    the signed-in principal, the known principals, the three tables, the
    clock (its successive readings), the page origin, and the requests that
    currently fail together with what they settle to. *)
Record backend : Type := mkBackend {
  session : option account;
  accounts : list account;
  paginas : list page;
  pagina_historial : list history_entry;
  profiles : list profile;
  clock : nat -> string;
  ticks : nat;
  browser : option string;
  outage : request -> option reply
}.

(** Modelled from the spec: the platform state with one component replaced. *)
Definition with_session (w : backend) (u : option account) : backend :=
  mkBackend u (accounts w) (paginas w) (pagina_historial w) (profiles w)
    (clock w) (ticks w) (browser w) (outage w).

(** Modelled from the spec: as above, for the known principals. *)
Definition with_accounts (w : backend) (l : list account) : backend :=
  mkBackend (session w) l (paginas w) (pagina_historial w) (profiles w)
    (clock w) (ticks w) (browser w) (outage w).

(** Modelled from the spec: as above, for the rows of [paginas]. *)
Definition with_paginas (w : backend) (l : list page) : backend :=
  mkBackend (session w) (accounts w) l (pagina_historial w) (profiles w)
    (clock w) (ticks w) (browser w) (outage w).

(** Modelled from the spec: as above, for the rows of [pagina_historial]. *)
Definition with_pagina_historial (w : backend) (l : list history_entry) : backend :=
  mkBackend (session w) (accounts w) (paginas w) l (profiles w)
    (clock w) (ticks w) (browser w) (outage w).

(** Modelled from the spec: as above, for the rows of [profiles]. *)
Definition with_profiles (w : backend) (l : list profile) : backend :=
  mkBackend (session w) (accounts w) (paginas w) (pagina_historial w) l
    (clock w) (ticks w) (browser w) (outage w).

(** Modelled from the spec: as above, for the number of clock readings. *)
Definition with_ticks (w : backend) (n : nat) : backend :=
  mkBackend (session w) (accounts w) (paginas w) (pagina_historial w) (profiles w)
    (clock w) n (browser w) (outage w).

(** Modelled from the spec: the user object of a principal. *)
Definition render_user (a : account) : jsval :=
  JObj [("id", JStr (user_id a)); ("email", JStr (user_email a));
        ("user_metadata", user_metadata a)].

(** Modelled from the spec: the session object, null when nobody is signed
    in. *)
Definition render_session (u : option account) : jsval :=
  match u with
  | Some a => JObj [("user", render_user a)]
  | None => JNull
  end.

(** Modelled from the spec: the user [getUser] reports, null when nobody is
    signed in. *)
Definition current_user (w : backend) : jsval :=
  match session w with
  | Some a => render_user a
  | None => JNull
  end.

(** Modelled from the spec: the error the authentication service reports for
    a call that needs a session when nobody is signed in (the platform's own
    "not authenticated" failure). *)
Definition session_missing : jsval :=
  JObj [("name", JStr "AuthSessionMissingError"); ("message", JStr "Auth session missing!")].

(** Modelled from the spec: the error that comes with the answer of
    [getUser]: none for a signed-in principal, the missing session
    otherwise. *)
Definition session_problem (w : backend) : jsval :=
  match session w with
  | Some _ => JNull
  | None => session_missing
  end.

(** Modelled from the spec: the principal registered under an address. *)
Definition find_account (mail : string) (l : list account) : option account :=
  find (fun a => user_email a =? mail) l.

(** Modelled from the spec: the answer of a refused authentication call. *)
Definition auth_failure (message : string) : jsval :=
  outcome (JObj [("user", JNull); ("session", JNull)])
          (JObj [("name", JStr "AuthApiError"); ("message", JStr message)]).

(** Modelled from the spec: registration, which fails on a taken or malformed
    address. *)
Definition serve_auth_signUp (credentials : jsval) (w : backend) : reply * backend :=
  match prop credentials "email", prop credentials "password" with
  | JStr mail, JStr pass =>
      match find_account mail (accounts w) with
      | Some _ => (Fulfilled (auth_failure "User already registered"), w)
      | None =>
          let a := mkAccount mail mail pass (prop (prop credentials "options") "data") in
          (Fulfilled (outcome (JObj [("user", render_user a);
                                     ("session", render_session (Some a))]) JNull),
           with_session (with_accounts w (accounts w ++ [a])) (Some a))
      end
  | _, _ => (Fulfilled (auth_failure "Unable to validate email address"), w)
  end.

(** Modelled from the spec: sign-in exchanges valid credentials for a
    session. *)
Definition serve_auth_signIn (credentials : jsval) (w : backend) : reply * backend :=
  match prop credentials "email", prop credentials "password" with
  | JStr mail, JStr pass =>
      match find_account mail (accounts w) with
      | Some a =>
          if user_password a =? pass
          then (Fulfilled (outcome (JObj [("user", render_user a);
                                          ("session", render_session (Some a))]) JNull),
                with_session w (Some a))
          else (Fulfilled (auth_failure "Invalid login credentials"), w)
      | None => (Fulfilled (auth_failure "Invalid login credentials"), w)
      end
  | _, _ => (Fulfilled (auth_failure "Invalid login credentials"), w)
  end.

(** Modelled from the spec: the platform's answer to each call of the client
    handle.  A call listed in [outage] settles as listed and changes nothing;
    absence of a session is no error for [getSession], while [getUser]
    answers it with a null user together with the missing-session error. *)
Definition reference_serve (r : request) (w : backend) : reply * backend :=
  match outage w r with
  | Some settled => (settled, w)
  | None =>
      match r with
      | AuthSignUp credentials => serve_auth_signUp credentials w
      | AuthSignInWithPassword credentials => serve_auth_signIn credentials w
      | AuthSignOut => (Fulfilled (outcome_error_only JNull), with_session w None)
      | AuthGetSession =>
          (Fulfilled (outcome (JObj [("session", render_session (session w))]) JNull), w)
      | AuthGetUser =>
          (Fulfilled (outcome (JObj [("user", current_user w)]) (session_problem w)), w)
      | AuthResetPasswordForEmail _ _ => (Fulfilled (outcome (JObj []) JNull), w)
      | Query q =>
          if q_from q =? "paginas" then
            let (answer, rows) := exec q (paginas w) in
            (Fulfilled answer, with_paginas w rows)
          else if q_from q =? "pagina_historial" then
            let (answer, rows) := exec q (pagina_historial w) in
            (Fulfilled answer, with_pagina_historial w rows)
          else if q_from q =? "profiles" then
            let (answer, rows) := exec q (profiles w) in
            (Fulfilled answer, with_profiles w rows)
          else
            (Fulfilled (outcome JNull (platform_error "42P01" "relation does not exist")), w)
      end
  end.

(** Modelled from the spec: the reference host: the platform above, a clock
    that advances at each reading, and the page origin. *)
Definition reference : Host backend :=
  mkHost backend reference_serve
    (fun w => (clock w (ticks w), with_ticks w (S (ticks w))))
    browser.

(** Running an operation from a fresh call record. *)
Definition start {W} (w : W) : state W := mkState w [] [].

(** No call is in outage: the platform serves every request. *)
Definition healthy (w : backend) : Prop := forall r, outage w r = None.

(** ** Vocabulary of the statements *)

(** [ends_with P m]: whenever the computation [m] returns, the returned value
    satisfies [P]. *)
Definition ends_with {W A} (P : A -> Prop) (m : M W A) : Prop :=
  forall s a s', m s = (Returned a, s') -> P a.

(** [a] may stand before [b] in the order decided by [le]. *)
Definition below {R} (le : R -> R -> bool) (a b : R) : Prop := le a b = true.

(** The values of the success path: [{ data, error: null }] and, for
    [signOut], [{ error: null }]. *)
Definition success_shaped (v : jsval) : Prop :=
  (exists data, v = outcome data JNull) \/ v = outcome_error_only JNull.

(** The values of the failure path carrying [e]: [{ data: null, error: e }]
    and, for [signOut], [{ error: e }]. *)
Definition failure_shaped (v e : jsval) : Prop :=
  v = outcome JNull e \/ v = outcome_error_only e.

(** What an invocation can produce: a success-shaped value, or a
    failure-shaped value whose error was logged last. *)
Definition settled {W} (v : jsval) (s' : state W) : Prop :=
  success_shaped v
  \/ exists e label l, failure_shaped v e /\ console s' = (l ++ [(label, e)])%list.

(** ** Reading outcomes and tables *)

(** [v != null] *)
Definition populated (v : jsval) : bool := negb (nullish v).

(** Exactly one of [data] and [error] is populated. *)
Definition exactly_one_populated (v : jsval) : bool :=
  xorb (populated (prop v "data")) (populated (prop v "error")).

(** [data] and [error] are not both populated. *)
Definition at_most_one_populated (v : jsval) : bool :=
  negb (populated (prop v "data") && populated (prop v "error")).

(** The answer of [auth.getUser()] that carries [user] and no error. *)
Definition user_answer (user : jsval) : reply :=
  Fulfilled (outcome (JObj [("user", user)]) JNull).

(** The profiles whose [id] is [uid]. *)
Definition profile_rows (uid : string) (rows : list profile) : list profile :=
  filter (fun p => profile_id p =? uid) rows.

(** The profiles after the role of every row with [id = uid] was set. *)
Definition set_role (uid newRole : string) (rows : list profile) : list profile :=
  map (fun p => if profile_id p =? uid
                then mkProfile (profile_id p) (email p) newRole (created_at p)
                else p) rows.

(** The pages named [name]. *)
Definition page_rows (name : string) (rows : list page) : list page :=
  filter (fun r => nombre r =? name) rows.

(** The pages after [fresh] was written under its name: the row of that
    name is overwritten, or the row is added when there is none. *)
Definition put_page (fresh : page) (rows : list page) : list page :=
  if existsb (fun r => nombre r =? nombre fresh) rows
  then map (fun r => if nombre r =? nombre fresh then fresh else r) rows
  else (rows ++ [fresh])%list.

(** The ten newest history rows of page [name], newest first. *)
Definition history_rows (name : string) (rows : list history_entry) : list history_entry :=
  firstn 10
    (sort_by (fun a b => h_actualizado_en b <=? h_actualizado_en a)
       (filter (fun r => nombre_pagina r =? name) rows)).

(** The columns [getPageHistory] selects. *)
Definition history_columns : list string :=
  ["contenido_html"; "actualizado_en"; "usuario_id"].

(** The timestamp carried by a returned history entry. *)
Definition stamp_of (entry : jsval) : string :=
  match prop entry "actualizado_en" with
  | JStr t => t
  | _ => ""
  end.

(** Newest first: no entry is older than the one that follows it. *)
Definition newest_first (entries : list jsval) : Prop :=
  Sorted (fun a b => (stamp_of b <=? stamp_of a) = true) entries.

(** The platform after a signed-in principal saved a page: the clock was
    read once and the row was written under the page name. *)
Definition saved (w : backend) (a : account) (name content : string) : backend :=
  with_paginas (with_ticks w (S (ticks w)))
    (put_page (mkPage name content (user_id a) (clock w (ticks w))) (paginas w)).

(** The three calls of a role update that passes the gate, in order. *)
Definition role_update_calls (admin_id userId newRole : string) : list request :=
  [AuthGetUser;
   Query (adminAPI.role_query (JStr admin_id));
   Query (adminAPI.update_role_query (JStr userId) (JStr newRole))].

(** ** Sample states of the reference platform *)

Definition ana : account := mkAccount "u-ana" "ana@residuos.org" "secreta" (JObj []).

Definition beto : account := mkAccount "u-beto" "beto@residuos.org" "clave" (JObj []).

(** Three successive readings of the clock. *)
Definition sample_clock (n : nat) : string :=
  match n with
  | 0 => "2024-05-01T10:00:00.000Z"
  | 1 => "2024-05-01T10:05:00.000Z"
  | _ => "2024-05-01T10:10:00.000Z"
  end.

(** Every call is served. *)
Definition no_outage : request -> option reply := fun _ => None.

(** Nobody is signed in; one page, two profiles. *)
Definition guest_backend : backend :=
  mkBackend None [ana; beto]
    [mkPage "home" "<h1>Inicio</h1>" "u-ana" "2024-04-30T09:00:00.000Z"]
    []
    [mkProfile "u-ana" "ana@residuos.org" "admin" "2024-01-01T00:00:00.000Z";
     mkProfile "u-beto" "beto@residuos.org" "user" "2024-02-01T00:00:00.000Z"]
    sample_clock 0 (Some "https://residuos.example") no_outage.

(** The administrator is signed in. *)
Definition admin_backend : backend := with_session guest_backend (Some ana).

(** A principal that is not an administrator is signed in. *)
Definition member_backend : backend := with_session guest_backend (Some beto).

(** The error of a query refused by a row-level policy. *)
Definition policy_denial : jsval :=
  platform_error "42501" "permission denied for table paginas".

(** Nobody is signed in and the data interface answers with a denial. *)
Definition denied_backend : backend :=
  mkBackend None [ana; beto] (paginas guest_backend) [] (profiles guest_backend)
    sample_clock 0 (Some "https://residuos.example")
    (fun r => match r with
              | Query _ => Some (Fulfilled (outcome JNull policy_denial))
              | _ => None
              end).

(** The reason of a call rejected by a failed fetch. *)
Definition fetch_failure : jsval := js_error "TypeError" "Failed to fetch".

(** A host on which every call rejects. *)
Definition offline_backend : backend :=
  mkBackend None [ana; beto] (paginas guest_backend) [] (profiles guest_backend)
    sample_clock 0 (Some "https://residuos.example")
    (fun _ => Some (Rejected fetch_failure)).

(** A principal is signed in but has no profile row. *)
Definition orphan_backend : backend :=
  with_profiles member_backend
    [mkProfile "u-ana" "ana@residuos.org" "admin" "2024-01-01T00:00:00.000Z"].

(** The administrator is signed in and the page "home" has a history. *)
Definition history_backend : backend :=
  with_pagina_historial admin_backend
    [mkHistory "home" "<h1>v1</h1>" "2024-03-01T08:00:00.000Z" "u-ana";
     mkHistory "home" "<h1>v3</h1>" "2024-03-03T08:00:00.000Z" "u-beto";
     mkHistory "ayuda" "<p>faq</p>" "2024-03-04T08:00:00.000Z" "u-ana";
     mkHistory "home" "<h1>v2</h1>" "2024-03-02T08:00:00.000Z" "u-ana"].

(** ** The functions one by one *)

(** The first argument of the [console.error] of each function. *)
Definition label_of (op : operation) : string :=
  match op with
  | SignUp _ _ _ => "Error en signUp:"
  | SignIn _ _ => "Error en signIn:"
  | SignOut => "Error en signOut:"
  | GetSession => "Error en getSession:"
  | GetUser => "Error en getUser:"
  | ResetPassword _ => "Error en resetPassword:"
  | SavePageContent _ _ => "Error en savePageContent:"
  | LoadPageContent _ => "Error en loadPageContent:"
  | GetPageHistory _ => "Error en getPageHistory:"
  | GetUsers => "Error en getUsers:"
  | UpdateUserRole _ _ => "Error en updateUserRole:"
  end.

(** The metadata [signUp] sends: the parameter defaults to [{}]. *)
Definition metadata_sent (userMetadata : jsval) : jsval :=
  match userMetadata with
  | JUndefined => JObj []
  | _ => userMetadata
  end.

(** The request of the functions that await one call whose arguments do not
    depend on the host. *)
Definition request_of (op : operation) : option request :=
  match op with
  | SignUp email password userMetadata =>
      Some (AuthSignUp (JObj [("email", email); ("password", password);
                              ("options", JObj [("data", metadata_sent userMetadata)])]))
  | SignIn email password =>
      Some (AuthSignInWithPassword (JObj [("email", email); ("password", password)]))
  | SignOut => Some AuthSignOut
  | GetSession => Some AuthGetSession
  | GetUser => Some AuthGetUser
  | LoadPageContent pageName => Some (Query (contentAPI.load_query pageName))
  | GetPageHistory pageName => Some (Query (contentAPI.history_query pageName))
  | ResetPassword _ | SavePageContent _ _ | GetUsers | UpdateUserRole _ _ => None
  end.

(** The record a function returns from its [catch]. *)
Definition failure_value (op : operation) (e : jsval) : jsval :=
  match op with
  | SignOut => outcome_error_only e
  | _ => outcome JNull e
  end.

(** The record a function returns at the end of its [try]. *)
Definition success_value (op : operation) (data : jsval) : jsval :=
  match op with
  | SignOut => outcome_error_only JNull
  | _ => outcome data JNull
  end.

(** The reported error is one the function does not throw: only
    [loadPageContent] has such a case, the code [PGRST116]. *)
Definition swallowed (op : operation) (error : jsval) : bool :=
  match op with
  | LoadPageContent _ => negb (strict_neq_str (prop error "code") "PGRST116")
  | _ => false
  end.

(** The request changes rows. *)
Definition is_write (r : request) : bool :=
  match r with
  | Query q =>
      match q_action q with
      | Upsert _ _ _ | Update _ => true
      | _ => false
      end
  | _ => false
  end.

(** The requests a function may send. *)
Definition may_send (op : operation) (r : request) : Prop :=
  match op with
  | SignUp _ _ _ | SignIn _ _ | SignOut | GetSession | GetUser
  | LoadPageContent _ | GetPageHistory _ => request_of op = Some r
  | ResetPassword email =>
      exists o, r = AuthResetPasswordForEmail email
                      (JObj [("redirectTo", JStr (o ++ "/update-password"))])
  | SavePageContent pageName content =>
      r = AuthGetUser
      \/ exists user_id stamp,
           r = Query (contentAPI.save_query pageName content user_id stamp)
  | GetUsers =>
      r = AuthGetUser
      \/ (exists user_id, r = Query (adminAPI.role_query user_id))
      \/ r = Query adminAPI.users_query
  | UpdateUserRole userId newRole =>
      r = AuthGetUser
      \/ (exists user_id, r = Query (adminAPI.role_query user_id))
      \/ r = Query (adminAPI.update_role_query userId newRole)
  end.

(** The request asks the platform to change something: a principal, a
    session, a password reset, or rows of a table. *)
Definition changes_state (r : request) : bool :=
  match r with
  | AuthSignUp _ | AuthSignInWithPassword _ | AuthSignOut
  | AuthResetPasswordForEmail _ _ => true
  | AuthGetSession | AuthGetUser => false
  | Query _ => is_write r
  end.

(** The function is one of the six that exist to change something. *)
Definition mutating (op : operation) : bool :=
  match op with
  | SignUp _ _ _ | SignIn _ _ | SignOut | ResetPassword _
  | SavePageContent _ _ | UpdateUserRole _ _ => true
  | GetSession | GetUser | LoadPageContent _ | GetPageHistory _ | GetUsers => false
  end.

(** The [try] block of each function. *)
Definition attempt {W} (H : Host W) (op : operation) : M W jsval :=
  match op with
  | SignUp email password userMetadata =>
      r <- await H (AuthSignUp (JObj [("email", email); ("password", password);
                                      ("options",
                                       JObj [("data", metadata_sent userMetadata)])])) ;;
      data <- get r "data" ;;
      error <- get r "error" ;;
      check_and_return data error
  | SignIn email password =>
      r <- await H (AuthSignInWithPassword
                      (JObj [("email", email); ("password", password)])) ;;
      data <- get r "data" ;;
      error <- get r "error" ;;
      check_and_return data error
  | SignOut =>
      r <- await H AuthSignOut ;;
      error <- get r "error" ;;
      if truthy error then throw error else ret (outcome_error_only JNull)
  | GetSession =>
      r <- await H AuthGetSession ;;
      data <- get r "data" ;;
      error <- get r "error" ;;
      check_and_return data error
  | GetUser =>
      r <- await H AuthGetUser ;;
      data <- get r "data" ;;
      error <- get r "error" ;;
      check_and_return data error
  | ResetPassword email =>
      o <- origin H ;;
      r <- await H (AuthResetPasswordForEmail email
                      (JObj [("redirectTo", JStr (o ++ "/update-password"))])) ;;
      data <- get r "data" ;;
      error <- get r "error" ;;
      check_and_return data error
  | SavePageContent pageName content =>
      r <- authAPI.getUser H ;;
      userData <- get r "data" ;;
      user <- get userData "user" ;;
      if negb (truthy user) then throw (new_Error "Usuario no autenticado") else
      user_id <- get user "id" ;;
      stamp <- now_iso H ;;
      r <- await H (Query (contentAPI.save_query pageName content user_id stamp)) ;;
      data <- get r "data" ;;
      error <- get r "error" ;;
      check_and_return data error
  | LoadPageContent pageName =>
      r <- await H (Query (contentAPI.load_query pageName)) ;;
      data <- get r "data" ;;
      error <- get r "error" ;;
      other <- (if truthy error
                then code <- get error "code" ;; ret (strict_neq_str code "PGRST116")
                else ret false) ;;
      if other then throw error else ret (outcome data JNull)
  | GetPageHistory pageName =>
      r <- await H (Query (contentAPI.history_query pageName)) ;;
      data <- get r "data" ;;
      error <- get r "error" ;;
      check_and_return data error
  | GetUsers =>
      r <- authAPI.getUser H ;;
      userData <- get r "data" ;;
      user <- get userData "user" ;;
      if negb (truthy user) then throw (new_Error "No autenticado") else
      user_id <- get user "id" ;;
      r <- await H (Query (adminAPI.role_query user_id)) ;;
      profile <- get r "data" ;;
      role <- get profile "role" ;;
      if strict_neq_str role "admin" then throw (new_Error "No autorizado") else
      r <- await H (Query adminAPI.users_query) ;;
      data <- get r "data" ;;
      error <- get r "error" ;;
      check_and_return data error
  | UpdateUserRole userId newRole =>
      r <- authAPI.getUser H ;;
      userData <- get r "data" ;;
      user <- get userData "user" ;;
      if negb (truthy user) then throw (new_Error "No autenticado") else
      user_id <- get user "id" ;;
      r <- await H (Query (adminAPI.role_query user_id)) ;;
      profile <- get r "data" ;;
      role <- get profile "role" ;;
      if strict_neq_str role "admin" then throw (new_Error "No autorizado") else
      r <- await H (Query (adminAPI.update_role_query userId newRole)) ;;
      data <- get r "data" ;;
      error <- get r "error" ;;
      check_and_return data error
  end.

(** The [catch] block of each function: the caught value is logged under the
    label of the function and returned as the error. *)
Definition rescue {W} (op : operation) (error : jsval) : M W jsval :=
  console_error (label_of op) error ;;; ret (failure_value op error).

(** The state after the [catch] block ran on [s] with the caught [error]. *)
Definition rescued {W} (op : operation) (error : jsval) (s : state W) : state W :=
  mkState (world s) (calls s) (console s ++ [(label_of op, error)]).

(** The remote calls of an invocation started on a fresh call record. *)
Definition trace {W} (H : Host W) (op : operation) (w : W) : list request :=
  calls (snd (invoke H op (start w))).

(** The request a function of [adminAPI] sends once its gate is passed. *)
Definition guarded_request (op : operation) : option request :=
  match op with
  | GetUsers => Some (Query adminAPI.users_query)
  | UpdateUserRole userId newRole =>
      Some (Query (adminAPI.update_role_query userId newRole))
  | _ => None
  end.

(** The user carried by the answer of [auth.getUser()]. *)
Definition reported_user (answer : jsval) : jsval :=
  prop (prop answer "data") "user".

(** From the world [w], [getUser] reported a user without error and the role
    looked up for that user's id is ['admin']. *)
Definition admin_confirmed {W} (H : Host W) (w : W) : Prop :=
  exists r1 w1 r2 w2,
    serve H AuthGetUser w = (Fulfilled r1, w1)
    /\ truthy (prop r1 "error") = false
    /\ truthy (reported_user r1) = true
    /\ serve H (Query (adminAPI.role_query (prop (reported_user r1) "id"))) w1
       = (Fulfilled r2, w2)
    /\ prop (prop r2 "data") "role" = JStr "admin".

(** The columns [getUsers] selects. *)
Definition profile_columns : list string := ["id"; "email"; "role"; "created_at"].

(** The profiles in the order of the listing, newest-created first. *)
Definition listed_profiles (rows : list profile) : list profile :=
  sort_by (fun a b => created_at b <=? created_at a) rows.

(** The stored history rows of page [name]. *)
Definition history_of (name : string) (rows : list history_entry) : list history_entry :=
  filter (fun r => nombre_pagina r =? name) rows.

(** A [createClient] that, like the platform's library, refuses an address
    that is not an http(s) one, and otherwise hands back a handle. *)
Definition checking_createClient (url key options : jsval) : completion client :=
  match url with
  | JStr u =>
      if String.prefix "http" u
      then Returned (mkClient url key options)
      else Thrown (new_Error "Invalid supabaseUrl: Must be a valid HTTP or HTTPS URL.")
  | _ => Thrown (new_Error "supabaseUrl is required.")
  end.

(** Nobody is signed in, on a platform that answers [getUser] with a null
    user and no error. *)
Definition anonymous_backend : backend :=
  mkBackend None [ana; beto] (paginas guest_backend) [] (profiles guest_backend)
    sample_clock 0 (Some "https://residuos.example")
    (fun r => match r with
              | AuthGetUser => Some (user_answer JNull)
              | _ => None
              end).

(** Nobody is signed in and [getUser] reports that as an error. *)
Definition expired_backend : backend :=
  mkBackend None [ana; beto] (paginas guest_backend) [] (profiles guest_backend)
    sample_clock 0 (Some "https://residuos.example")
    (fun r => match r with
              | AuthGetUser =>
                  Some (Fulfilled (outcome (JObj [("user", JNull)]) session_missing))
              | _ => None
              end).

(** Every call fulfils with [null] instead of a record. *)
Definition garbled_backend : backend :=
  mkBackend None [ana; beto] (paginas guest_backend) [] (profiles guest_backend)
    sample_clock 0 (Some "https://residuos.example")
    (fun _ => Some (Fulfilled JNull)).

(** The module runs outside a browser: there is no [window]. *)
Definition server_backend : backend :=
  mkBackend None [ana; beto] (paginas guest_backend) [] (profiles guest_backend)
    sample_clock 0 None no_outage.

(** * Properties *)

(** ** What a function body can end with *)

Lemma ends_ret {W A} (P : A -> Prop) (a : A) : P a -> ends_with (W := W) P (ret a).
Proof. intros Pa s b s' E. inversion E. subst. exact Pa. Qed.

Lemma ends_throw {W A} (P : A -> Prop) (e : jsval) : ends_with (W := W) P (throw e).
Proof. intros s b s' E. discriminate E. Qed.

Lemma ends_bind {W A B} (P : B -> Prop) (m : M W A) (k : A -> M W B) :
  (forall a, ends_with P (k a)) -> ends_with P (bind m k).
Proof.
  intros Hk s b s' E. unfold bind in E.
  destruct (m s) as [[a | e] s1].
  - exact (Hk a s1 b s' E).
  - discriminate E.
Qed.

Lemma ends_check_and_return {W} (data error : jsval) :
  ends_with (W := W) success_shaped (check_and_return data error).
Proof.
  unfold check_and_return. destruct (truthy error).
  - apply ends_throw.
  - apply ends_ret. left. exists data. reflexivity.
Qed.

Ltac ends :=
  repeat first
    [ apply ends_check_and_return
    | apply ends_throw
    | apply ends_bind; intro
    | apply ends_ret; solve [ left; eexists; reflexivity | right; reflexivity ]
    | match goal with
      | |- ends_with _ (if ?b then _ else _) => destruct b
      | |- ends_with _ (match ?u with JUndefined => _ | _ => _ end) => destruct u
      end ].

(** A [try] whose handler logs the caught value and returns a value built
    from it always returns: with what the body returned, or with the
    handler's value and the caught value as the last line of the log. *)
Lemma try_catch_settles {W} (body : M W jsval) (label : string) (build : jsval -> jsval)
    (s : state W) :
  exists v s',
    try_catch body (fun e => console_error label e ;;; ret (build e)) s = (Returned v, s')
    /\ ((exists s1, body s = (Returned v, s1))
        \/ (exists e s1, body s = (Thrown e, s1) /\ v = build e
                         /\ console s' = (console s1 ++ [(label, e)])%list)).
Proof.
  unfold try_catch. destruct (body s) as [[v | e] s1].
  - exists v, s1. split; [reflexivity | left; exists s1; reflexivity].
  - eexists _, _. split; [reflexivity |].
    right. exists e, s1. repeat split.
Qed.

Lemma settles_from_body {W} (body : M W jsval) (label : string) (build : jsval -> jsval)
    (s : state W) :
  ends_with success_shaped body ->
  (forall e, failure_shaped (build e) e) ->
  exists v s',
    try_catch body (fun e => console_error label e ;;; ret (build e)) s = (Returned v, s')
    /\ settled v s'.
Proof.
  intros Hbody Hbuild.
  destruct (try_catch_settles body label build s) as (v & s' & E & [[s1 Hs] | (e & s1 & _ & Hv & Hc)]).
  - exists v, s'. split; [exact E | left; exact (Hbody _ _ _ Hs)].
  - exists v, s'. split; [exact E |].
    right. exists e, label, (console s1). subst v. split; [apply Hbuild | exact Hc].
Qed.

Lemma failure_outcome (e : jsval) : failure_shaped (outcome JNull e) e.
Proof. left. reflexivity. Qed.

Lemma failure_error_only (e : jsval) : failure_shaped (outcome_error_only e) e.
Proof. right. reflexivity. Qed.

(** Every exported function returns, whatever the host does, with a settled
    value. *)
Lemma invoke_settles {W} (H : Host W) (op : operation) (s : state W) :
  exists v s', invoke H op s = (Returned v, s') /\ settled v s'.
Proof.
  destruct op; simpl;
    first [ apply (settles_from_body _ _ (outcome JNull)); [| exact failure_outcome]
          | apply (settles_from_body _ _ outcome_error_only); [| exact failure_error_only] ];
    ends.
Qed.

(** ** The outcome record *)

Lemma settled_at_most_one {W} (v : jsval) (s' : state W) :
  settled v s' -> at_most_one_populated v = true.
Proof.
  intros [[[d ->] | ->] | (e & label & l & [-> | ->] & _)]; unfold at_most_one_populated; simpl.
  - apply negb_true_iff, andb_false_r.
  - reflexivity.
  - reflexivity.
  - reflexivity.
Qed.

(** C1, as stated, fails: fetching a page that does not exist returns
    [{ data: null, error: null }], and a successful [signOut] returns
    [{ error: null }]; in both neither field is populated. *)
Lemma outcome_both_null :
  (fst (invoke reference (LoadPageContent (JStr "contacto")) (start guest_backend))
     = Returned (outcome JNull JNull)
   /\ exactly_one_populated (outcome JNull JNull) = false)
  /\ (fst (invoke reference SignOut (start admin_backend))
        = Returned (outcome_error_only JNull)
      /\ exactly_one_populated (outcome_error_only JNull) = false).
Proof. repeat split. Qed.

(** C1, amended: every exported function, for every input and whatever the
    host answers, returns an outcome in which [data] and [error] are never
    both populated (both may be null). *)
Theorem outcome_never_both_populated {W} (H : Host W) (op : operation) (s : state W) :
  exists v s', invoke H op s = (Returned v, s') /\ at_most_one_populated v = true.
Proof.
  destruct (invoke_settles H op s) as (v & s' & E & Hv).
  exists v, s'. split; [exact E | exact (settled_at_most_one v s' Hv)].
Qed.

(** ** Unfolding a call step by step *)

Lemma truthy_not_nullish (v : jsval) : truthy v = true -> nullish v = false.
Proof. destruct v; simpl; congruence. Qed.

Ltac run_call :=
  unfold try_catch, bind, await, get, check_and_return, report, console_error,
    ret, throw; simpl.

(** ** loadPageContent: absence against failure *)

(** C2: when the platform answers the single-row fetch with its no-rows code
    [PGRST116] (and null data), [loadPageContent] returns
    [{ data: null, error: null }]; when it reports any other error, the
    function returns [{ data: null, error }] with that error, which is
    populated; when the call rejects, it returns [{ data: null, error }] with
    the reason of the rejection. *)
Theorem loadPageContent_absent_or_failed {W} (H : Host W) (pageName : jsval)
    (s : state W) (answer : reply) (w' : W) :
  serve H (Query (contentAPI.load_query pageName)) (world s) = (answer, w') ->
  (forall e, answer = Fulfilled (outcome JNull e) ->
             truthy e = true -> prop e "code" = JStr "PGRST116" ->
             fst (contentAPI.loadPageContent H pageName s) = Returned (outcome JNull JNull))
  /\ (forall d e, answer = Fulfilled (outcome d e) ->
                  truthy e = true -> prop e "code" <> JStr "PGRST116" ->
                  fst (contentAPI.loadPageContent H pageName s) = Returned (outcome JNull e)
                  /\ populated e = true)
  /\ (forall e, answer = Rejected e ->
                fst (contentAPI.loadPageContent H pageName s) = Returned (outcome JNull e)).
Proof.
  intros Hserve. unfold contentAPI.loadPageContent.
  split; [| split].
  - intros e -> He Hcode. run_call. rewrite Hserve. simpl.
    rewrite He, (truthy_not_nullish e He), Hcode. reflexivity.
  - intros d e -> He Hcode. split.
    + run_call. rewrite Hserve. simpl.
      rewrite He, (truthy_not_nullish e He).
      assert (Hneq : strict_neq_str (prop e "code") "PGRST116" = true).
      { destruct (prop e "code") as [| | | | c | |]; try reflexivity.
        simpl. apply negb_true_iff. apply String.eqb_neq.
        intros ->. apply Hcode. reflexivity. }
      rewrite Hneq. reflexivity.
    + unfold populated. rewrite (truthy_not_nullish e He). reflexivity.
  - intros e ->. run_call. rewrite Hserve. reflexivity.
Qed.

(** ** savePageContent without a signed-in principal *)

(** The branch written for the caller without a session: when
    [auth.getUser()] reports a falsy user and no error, [savePageContent]
    returns [{ data: null, error }] with the locally made error "Usuario no
    autenticado"; the only remote call issued is that [getUser] (no request
    reaches the page table) and the failure is logged. *)
Theorem savePageContent_unauthenticated {W} (H : Host W) (pageName content : jsval)
    (s : state W) (user : jsval) (w' : W) :
  serve H AuthGetUser (world s) = (user_answer user, w') ->
  truthy user = false ->
  contentAPI.savePageContent H pageName content s =
    (Returned (outcome JNull (new_Error "Usuario no autenticado")),
     mkState w' (calls s ++ [AuthGetUser])
       (console s ++ [("Error en savePageContent:", new_Error "Usuario no autenticado")])).
Proof.
  intros Hserve Huser.
  unfold contentAPI.savePageContent, authAPI.getUser. run_call.
  rewrite Hserve. unfold user_answer. simpl. rewrite Huser. reflexivity.
Qed.

(** When [auth.getUser()] reports an error instead (a platform that treats
    the missing session as a failure), [authAPI.getUser] hands back
    [data: null] and the function fails on reading [user] of null: the
    caller gets the [TypeError], not the authentication error. *)
Remark savePageContent_getUser_failed {W} (H : Host W) (pageName content : jsval)
    (s : state W) (data problem : jsval) (w' : W) :
  serve H AuthGetUser (world s) = (Fulfilled (outcome data problem), w') ->
  truthy problem = true ->
  fst (contentAPI.savePageContent H pageName content s)
    = Returned (outcome JNull (type_error JNull "user"))
  /\ calls (snd (contentAPI.savePageContent H pageName content s))
     = (calls s ++ [AuthGetUser])%list.
Proof.
  intros Hserve Hproblem.
  unfold contentAPI.savePageContent, authAPI.getUser. run_call.
  rewrite Hserve. simpl. rewrite Hproblem. simpl. split; reflexivity.
Qed.

(** ** The administrator gate *)

(** C4: for a signed-in principal whose profile exists and carries a role
    other than ['admin'], [getUsers] and [updateUserRole] both return
    [{ data: null, error }] with the error "No autorizado"; the calls issued
    are [getUser] and the role lookup, nothing else (no role is updated). *)
Theorem admin_functions_reject_other_roles {W} (H : Host W) (userId newRole : jsval)
    (s : state W) (user profile problem : jsval) (w1 w2 : W) :
  serve H AuthGetUser (world s) = (user_answer user, w1) ->
  truthy user = true ->
  serve H (Query (adminAPI.role_query (prop user "id"))) w1
    = (Fulfilled (outcome profile problem), w2) ->
  nullish profile = false ->
  prop profile "role" <> JStr "admin" ->
  let denied := new_Error "No autorizado" in
  let issued := (calls s ++ [AuthGetUser; Query (adminAPI.role_query (prop user "id"))])%list in
  adminAPI.getUsers H s =
    (Returned (outcome JNull denied),
     mkState w2 issued (console s ++ [("Error en getUsers:", denied)]))
  /\ adminAPI.updateUserRole H userId newRole s =
    (Returned (outcome JNull denied),
     mkState w2 issued (console s ++ [("Error en updateUserRole:", denied)])).
Proof.
  intros Huser Htruthy Hrole Hprofile Hother denied issued.
  assert (Hneq : strict_neq_str (prop profile "role") "admin" = true).
  { destruct (prop profile "role") as [| | | | r | |]; try reflexivity.
    simpl. apply negb_true_iff. apply String.eqb_neq.
    intros ->. apply Hother. reflexivity. }
  split.
  - unfold adminAPI.getUsers, authAPI.getUser. run_call.
    rewrite Huser. unfold user_answer. simpl.
    rewrite Htruthy, (truthy_not_nullish user Htruthy). simpl.
    rewrite Hrole. simpl. rewrite Hprofile. simpl. rewrite Hneq.
    subst issued. rewrite <- app_assoc. reflexivity.
  - unfold adminAPI.updateUserRole, authAPI.getUser. run_call.
    rewrite Huser. unfold user_answer. simpl.
    rewrite Htruthy, (truthy_not_nullish user Htruthy). simpl.
    rewrite Hrole. simpl. rewrite Hprofile. simpl. rewrite Hneq.
    subst issued. rewrite <- app_assoc. reflexivity.
Qed.

(** C9: for a signed-in principal whose role lookup yields no record
    ([data] is null), [getUsers] and [updateUserRole] both return
    [{ data: null, error }] where the error is the [TypeError] of reading
    [role] of null, caught by the function; nothing is listed or updated. *)
Theorem admin_functions_reject_missing_profile {W} (H : Host W) (userId newRole : jsval)
    (s : state W) (user profile problem : jsval) (w1 w2 : W) :
  serve H AuthGetUser (world s) = (user_answer user, w1) ->
  truthy user = true ->
  serve H (Query (adminAPI.role_query (prop user "id"))) w1
    = (Fulfilled (outcome profile problem), w2) ->
  nullish profile = true ->
  let failure := type_error profile "role" in
  let issued := (calls s ++ [AuthGetUser; Query (adminAPI.role_query (prop user "id"))])%list in
  populated failure = true
  /\ adminAPI.getUsers H s =
    (Returned (outcome JNull failure),
     mkState w2 issued (console s ++ [("Error en getUsers:", failure)]))
  /\ adminAPI.updateUserRole H userId newRole s =
    (Returned (outcome JNull failure),
     mkState w2 issued (console s ++ [("Error en updateUserRole:", failure)])).
Proof.
  intros Huser Htruthy Hrole Hprofile failure issued.
  split; [reflexivity | split].
  - unfold adminAPI.getUsers, authAPI.getUser. run_call.
    rewrite Huser. unfold user_answer. simpl.
    rewrite Htruthy, (truthy_not_nullish user Htruthy). simpl.
    rewrite Hrole. simpl. rewrite Hprofile. simpl.
    subst issued. rewrite <- app_assoc. reflexivity.
  - unfold adminAPI.updateUserRole, authAPI.getUser. run_call.
    rewrite Huser. unfold user_answer. simpl.
    rewrite Htruthy, (truthy_not_nullish user Htruthy). simpl.
    rewrite Hrole. simpl. rewrite Hprofile. simpl.
    subst issued. rewrite <- app_assoc. reflexivity.
Qed.

(** ** The success paths, for any host *)

Lemma savePageContent_writes {W} (H : Host W) (pageName content : jsval)
    (s : state W) (user data problem : jsval) (stamp : string) (w1 w2 w3 : W) :
  serve H AuthGetUser (world s) = (user_answer user, w1) ->
  truthy user = true ->
  date_now H w1 = (stamp, w2) ->
  serve H (Query (contentAPI.save_query pageName content (prop user "id") stamp)) w2
    = (Fulfilled (outcome data problem), w3) ->
  truthy problem = false ->
  contentAPI.savePageContent H pageName content s =
    (Returned (outcome data JNull),
     mkState w3
       (calls s ++ [AuthGetUser;
                    Query (contentAPI.save_query pageName content (prop user "id") stamp)])
       (console s)).
Proof.
  intros Huser Htruthy Hnow Hsave Hproblem.
  unfold contentAPI.savePageContent, authAPI.getUser, now_iso. run_call.
  rewrite Huser. unfold user_answer. simpl.
  rewrite Htruthy, (truthy_not_nullish user Htruthy). simpl.
  rewrite Hnow. simpl. rewrite Hsave. simpl. rewrite Hproblem.
  rewrite <- app_assoc. reflexivity.
Qed.

Lemma loadPageContent_answered {W} (H : Host W) (pageName : jsval)
    (s : state W) (data problem : jsval) (w' : W) :
  serve H (Query (contentAPI.load_query pageName)) (world s)
    = (Fulfilled (outcome data problem), w') ->
  truthy problem = false \/ prop problem "code" = JStr "PGRST116" ->
  contentAPI.loadPageContent H pageName s =
    (Returned (outcome data JNull),
     mkState w' (calls s ++ [Query (contentAPI.load_query pageName)]) (console s)).
Proof.
  intros Hserve Hproblem.
  unfold contentAPI.loadPageContent. run_call. rewrite Hserve. simpl.
  destruct (truthy problem) eqn:Ht.
  - destruct Hproblem as [C | Hcode]; [discriminate C |].
    rewrite (truthy_not_nullish problem Ht), Hcode. reflexivity.
  - reflexivity.
Qed.

Lemma getPageHistory_answered {W} (H : Host W) (pageName : jsval)
    (s : state W) (data problem : jsval) (w' : W) :
  serve H (Query (contentAPI.history_query pageName)) (world s)
    = (Fulfilled (outcome data problem), w') ->
  truthy problem = false ->
  contentAPI.getPageHistory H pageName s =
    (Returned (outcome data JNull),
     mkState w' (calls s ++ [Query (contentAPI.history_query pageName)]) (console s)).
Proof.
  intros Hserve Hproblem.
  unfold contentAPI.getPageHistory. run_call. rewrite Hserve. simpl.
  rewrite Hproblem. reflexivity.
Qed.

Lemma updateUserRole_writes {W} (H : Host W) (userId newRole : jsval)
    (s : state W) (user profile problem data problem' : jsval) (w1 w2 w3 : W) :
  serve H AuthGetUser (world s) = (user_answer user, w1) ->
  truthy user = true ->
  serve H (Query (adminAPI.role_query (prop user "id"))) w1
    = (Fulfilled (outcome profile problem), w2) ->
  prop profile "role" = JStr "admin" ->
  serve H (Query (adminAPI.update_role_query userId newRole)) w2
    = (Fulfilled (outcome data problem'), w3) ->
  truthy problem' = false ->
  adminAPI.updateUserRole H userId newRole s =
    (Returned (outcome data JNull),
     mkState w3
       (calls s ++ [AuthGetUser; Query (adminAPI.role_query (prop user "id"));
                    Query (adminAPI.update_role_query userId newRole)])
       (console s)).
Proof.
  intros Huser Htruthy Hrole Hadmin Hupdate Hproblem.
  assert (Hprofile : nullish profile = false).
  { destruct profile; simpl in Hadmin; try discriminate Hadmin. reflexivity. }
  unfold adminAPI.updateUserRole, authAPI.getUser. run_call.
  rewrite Huser. unfold user_answer. simpl.
  rewrite Htruthy, (truthy_not_nullish user Htruthy). simpl.
  rewrite Hrole. simpl. rewrite Hprofile, Hadmin. simpl.
  rewrite Hupdate. simpl. rewrite Hproblem.
  rewrite <- !app_assoc. reflexivity.
Qed.

(** ** The reference platform, call by call *)

Lemma filter_matches_one {R} `{Table R} (c v : string) (rows : list R) :
  filter (matches [(c, v)]) rows = filter (fun r => read r c =? v) rows.
Proof.
  apply filter_ext. intros r. unfold matches. simpl. apply andb_true_r.
Qed.

Lemma with_profiles_same (w : backend) : with_profiles w (profiles w) = w.
Proof. destruct w. reflexivity. Qed.

Lemma with_paginas_same (w : backend) : with_paginas w (paginas w) = w.
Proof. destruct w. reflexivity. Qed.

Lemma with_pagina_historial_same (w : backend) :
  with_pagina_historial w (pagina_historial w) = w.
Proof. destruct w. reflexivity. Qed.

Lemma reference_getUser (w : backend) :
  healthy w ->
  serve reference AuthGetUser w
    = (Fulfilled (outcome (JObj [("user", current_user w)]) (session_problem w)), w).
Proof. intros Hh. simpl. unfold reference_serve. rewrite Hh. reflexivity. Qed.

Lemma reference_role_query (w : backend) (uid : string) :
  healthy w ->
  serve reference (Query (adminAPI.role_query (JStr uid))) w =
    (Fulfilled (match profile_rows uid (profiles w) with
                | [p] => outcome (JObj [("role", JStr (role p))]) JNull
                | _ => outcome JNull no_rows_error
                end), w).
Proof.
  intros Hh. simpl. unfold reference_serve. rewrite Hh. cbn.
  rewrite filter_matches_one. unfold profile_rows. cbn.
  destruct (filter _ _) as [| p [| p' l]]; rewrite with_profiles_same; reflexivity.
Qed.

Lemma reference_update_role (w : backend) (uid newRole : string) :
  healthy w ->
  serve reference (Query (adminAPI.update_role_query (JStr uid) (JStr newRole))) w =
    (Fulfilled (outcome JNull JNull), with_profiles w (set_role uid newRole (profiles w))).
Proof.
  intros Hh. simpl. unfold reference_serve. rewrite Hh. cbn.
  unfold set_role. do 2 f_equal. apply map_ext. intros p.
  unfold matches. simpl. rewrite andb_true_r. reflexivity.
Qed.

Lemma reference_save_query (w : backend) (name content uid stamp : string) :
  healthy w ->
  serve reference
    (Query (contentAPI.save_query (JStr name) (JStr content) (JStr uid) stamp)) w =
    (Fulfilled (outcome JNull JNull),
     with_paginas w (put_page (mkPage name content uid stamp) (paginas w))).
Proof.
  intros Hh. simpl. unfold reference_serve. rewrite Hh. cbn. reflexivity.
Qed.

Lemma reference_load_query (w : backend) (name : string) :
  healthy w ->
  serve reference (Query (contentAPI.load_query (JStr name))) w =
    (Fulfilled (match page_rows name (paginas w) with
                | [r] => outcome (JObj [("contenido_html", JStr (contenido_html r));
                                        ("actualizado_en", JStr (actualizado_en r))]) JNull
                | _ => outcome JNull no_rows_error
                end), w).
Proof.
  intros Hh. simpl. unfold reference_serve. rewrite Hh. cbn.
  rewrite filter_matches_one. unfold page_rows. cbn.
  destruct (filter _ _) as [| r [| r' l]]; rewrite with_paginas_same; reflexivity.
Qed.

Lemma reference_history_query (w : backend) (name : string) :
  healthy w ->
  serve reference (Query (contentAPI.history_query (JStr name))) w =
    (Fulfilled (outcome (JArr (map (render history_columns)
                                   (history_rows name (pagina_historial w)))) JNull), w).
Proof.
  intros Hh. simpl. unfold reference_serve. rewrite Hh. cbn.
  rewrite filter_matches_one, with_pagina_historial_same. reflexivity.
Qed.

(** ** Ordering and capping *)

Section Sorting.
Context {R : Type} (le : R -> R -> bool).
Hypothesis le_total : forall a b, le a b = false -> le b a = true.

Lemma insert_by_head (x y : R) (l : list R) :
  below le y x -> HdRel (below le) y l -> HdRel (below le) y (insert_by le x l).
Proof.
  intros Hyx Hl. destruct l as [| z l]; simpl.
  - constructor. exact Hyx.
  - destruct (le x z); constructor; [exact Hyx |].
    inversion Hl. assumption.
Qed.

Lemma insert_by_sorted (x : R) (l : list R) :
  Sorted (below le) l -> Sorted (below le) (insert_by le x l).
Proof.
  induction l as [| y l IH]; intros Hs; simpl.
  - repeat constructor.
  - destruct (le x y) eqn:E.
    + constructor; [exact Hs | constructor; exact E].
    + inversion Hs as [| ? ? Hl Hhd]; subst.
      constructor; [exact (IH Hl) |].
      apply insert_by_head; [exact (le_total x y E) | exact Hhd].
Qed.

Lemma sort_by_sorted (l : list R) : Sorted (below le) (sort_by le l).
Proof.
  induction l as [| x l IH]; simpl.
  - constructor.
  - apply insert_by_sorted. exact IH.
Qed.

Lemma insert_by_In (x y : R) (l : list R) :
  In y (insert_by le x l) -> y = x \/ In y l.
Proof.
  induction l as [| z l IH]; simpl.
  - intros [-> | []]. left. reflexivity.
  - destruct (le x z); simpl.
    + intros [-> | Hin]; [left; reflexivity | right; exact Hin].
    + intros [-> | Hin]; [right; left; reflexivity |].
      destruct (IH Hin) as [-> | Hl]; [left; reflexivity | right; right; exact Hl].
Qed.

Lemma sort_by_In (y : R) (l : list R) : In y (sort_by le l) -> In y l.
Proof.
  induction l as [| x l IH]; simpl.
  - intros [].
  - intros Hin. destruct (insert_by_In x y _ Hin) as [-> | Hl].
    + left. reflexivity.
    + right. exact (IH Hl).
Qed.
End Sorting.

Lemma Sorted_firstn {A} (R : A -> A -> Prop) (n : nat) (l : list A) :
  Sorted R l -> Sorted R (firstn n l).
Proof.
  revert l. induction n as [| n IH]; intros l Hs; simpl.
  - constructor.
  - destruct l as [| x l]; [constructor |].
    inversion Hs as [| ? ? Hl Hhd]; subst.
    constructor; [exact (IH l Hl) |].
    destruct n, l; simpl; try constructor.
    inversion Hhd. assumption.
Qed.

Lemma In_firstn {A} (n : nat) (l : list A) (x : A) : In x (firstn n l) -> In x l.
Proof.
  revert l. induction n as [| n IH]; intros [| y l]; simpl; try tauto.
  intros [-> | Hin]; [left; reflexivity | right; exact (IH l Hin)].
Qed.

Lemma Sorted_map {A B} (f : A -> B) (R : B -> B -> Prop) (l : list A) :
  Sorted (fun a b => R (f a) (f b)) l -> Sorted R (map f l).
Proof.
  induction l as [| x l IH]; intros Hs; simpl.
  - constructor.
  - inversion Hs as [| ? ? Hl Hhd]; subst.
    constructor; [exact (IH Hl) |].
    destruct l; simpl; constructor.
    inversion Hhd. assumption.
Qed.

Lemma string_leb_total (a b : string) : (a <=? b) = false -> (b <=? a) = true.
Proof.
  intros E. destruct (String.leb_total a b) as [C | C]; [congruence | exact C].
Qed.

Lemma history_rows_sorted (name : string) (rows : list history_entry) :
  Sorted (fun a b => (h_actualizado_en b <=? h_actualizado_en a) = true)
    (history_rows name rows).
Proof.
  unfold history_rows. apply Sorted_firstn.
  apply (sort_by_sorted (fun a b => h_actualizado_en b <=? h_actualizado_en a)).
  intros a b. apply string_leb_total.
Qed.

Lemma history_rows_of_page (name : string) (rows : list history_entry) (r : history_entry) :
  In r (history_rows name rows) -> In r rows /\ nombre_pagina r = name.
Proof.
  unfold history_rows. intros Hin.
  apply In_firstn, sort_by_In, filter_In in Hin.
  destruct Hin as [Hin Hname]. split; [exact Hin | apply String.eqb_eq; exact Hname].
Qed.

(** C6: on the reference platform, [getPageHistory] returns an array of at
    most 10 entries, each a stored history row of that page, in which no entry
    is older than the one after it (newest first). *)
Theorem getPageHistory_capped_newest_first (pageName : string) (s : state backend) :
  healthy (world s) ->
  exists rows s',
    contentAPI.getPageHistory reference (JStr pageName) s
      = (Returned (outcome (JArr (map (render history_columns) rows)) JNull), s')
    /\ List.length (map (render history_columns) rows) <= 10
    /\ newest_first (map (render history_columns) rows)
    /\ (forall r, In r rows ->
          In r (pagina_historial (world s)) /\ nombre_pagina r = pageName).
Proof.
  intros Hh.
  exists (history_rows pageName (pagina_historial (world s))). eexists.
  split; [| split; [| split]].
  - apply getPageHistory_answered with (problem := JNull); [| reflexivity].
    apply reference_history_query. exact Hh.
  - rewrite length_map. unfold history_rows. rewrite length_firstn. lia.
  - unfold newest_first. apply Sorted_map. apply history_rows_sorted.
  - intros r. apply history_rows_of_page.
Qed.

(** On the reference platform, loading a name that no page carries returns
    [{ data: null, error: null }]: the platform answers with its no-rows
    error, which the function swallows. *)
Lemma reference_loadPageContent_absent (name : string) (s : state backend) :
  healthy (world s) ->
  page_rows name (paginas (world s)) = [] ->
  fst (contentAPI.loadPageContent reference (JStr name) s) = Returned (outcome JNull JNull).
Proof.
  intros Hh Hnone.
  rewrite (loadPageContent_answered reference (JStr name) s JNull no_rows_error (world s)).
  - reflexivity.
  - rewrite (reference_load_query (world s) name Hh), Hnone. reflexivity.
  - right. reflexivity.
Qed.

(** ** Writing a page by its name *)

Lemma page_rows_none (name : string) (rows : list page) :
  (forall r, In r rows -> nombre r <> name) -> page_rows name rows = [].
Proof.
  induction rows as [| r rows IH]; intros Hnone; simpl.
  - reflexivity.
  - destruct (nombre r =? name) eqn:E.
    + apply String.eqb_eq in E. exfalso. apply (Hnone r); [left; reflexivity | exact E].
    + apply IH. intros r' Hin. apply Hnone. right. exact Hin.
Qed.

Lemma no_clash_rows (name : string) (rows : list page) :
  existsb (fun r => nombre r =? name) rows = false ->
  forall r, In r rows -> nombre r <> name.
Proof.
  intros Hex r Hin Hname.
  assert (Hsome : existsb (fun r => nombre r =? name) rows = true).
  { apply existsb_exists. exists r. split; [exact Hin | apply String.eqb_eq; exact Hname]. }
  congruence.
Qed.

Lemma overwrite_untouched (fresh : page) (rows : list page) :
  (forall r, In r rows -> nombre r <> nombre fresh) ->
  map (fun r => if nombre r =? nombre fresh then fresh else r) rows = rows.
Proof.
  induction rows as [| r rows IH]; intros Hnone; simpl.
  - reflexivity.
  - rewrite IH by (intros r' Hin; apply Hnone; right; exact Hin).
    destruct (nombre r =? nombre fresh) eqn:E; [| reflexivity].
    apply String.eqb_eq in E. exfalso. apply (Hnone r); [left; reflexivity | exact E].
Qed.

Lemma overwrite_names (fresh : page) (rows : list page) :
  map nombre (map (fun r => if nombre r =? nombre fresh then fresh else r) rows)
  = map nombre rows.
Proof.
  induction rows as [| r rows IH]; simpl.
  - reflexivity.
  - rewrite IH. f_equal.
    destruct (nombre r =? nombre fresh) eqn:E; [| reflexivity].
    apply String.eqb_eq in E. symmetry. exact E.
Qed.

(** The unique-name constraint of [paginas] survives a write. *)
Lemma put_page_NoDup (fresh : page) (rows : list page) :
  NoDup (map nombre rows) -> NoDup (map nombre (put_page fresh rows)).
Proof.
  intros Hnd. unfold put_page.
  destruct (existsb (fun r => nombre r =? nombre fresh) rows) eqn:E.
  - rewrite overwrite_names. exact Hnd.
  - rewrite map_app. apply NoDup_app.
    + exact Hnd.
    + simpl. constructor; [intros [] | constructor].
    + intros name Hin [<- | []].
      apply in_map_iff in Hin. destruct Hin as (r & Hname & Hr).
      exact (no_clash_rows _ _ E r Hr Hname).
Qed.

(** After a write, exactly one row carries the written name: the written one. *)
Lemma page_rows_put_page (fresh : page) (rows : list page) :
  NoDup (map nombre rows) ->
  page_rows (nombre fresh) (put_page fresh rows) = [fresh].
Proof.
  intros Hnd. unfold put_page.
  destruct (existsb (fun r => nombre r =? nombre fresh) rows) eqn:E.
  - induction rows as [| r rows IH]; simpl in *.
    + discriminate E.
    + inversion Hnd as [| ? ? Hnotin Hrest]; subst.
      destruct (nombre r =? nombre fresh) eqn:Er; simpl.
      * rewrite String.eqb_refl.
        apply String.eqb_eq in Er.
        assert (Hnone : forall r', In r' rows -> nombre r' <> nombre fresh).
        { intros r' Hin Hname. apply Hnotin. rewrite Er, <- Hname.
          apply in_map. exact Hin. }
        rewrite overwrite_untouched by exact Hnone.
        fold (page_rows (nombre fresh) rows).
        rewrite page_rows_none by exact Hnone. reflexivity.
      * rewrite Er. apply IH; assumption.
  - unfold page_rows. rewrite filter_app. fold (page_rows (nombre fresh) rows).
    rewrite page_rows_none by (apply no_clash_rows; exact E).
    simpl. rewrite String.eqb_refl. reflexivity.
Qed.

(** ** Two writes and a read *)

Lemma healthy_with_ticks (w : backend) (n : nat) : healthy w -> healthy (with_ticks w n).
Proof. intros Hh r. exact (Hh r). Qed.

Lemma healthy_with_paginas (w : backend) (l : list page) :
  healthy w -> healthy (with_paginas w l).
Proof. intros Hh r. exact (Hh r). Qed.

Lemma reference_signed_in (w : backend) (a : account) :
  healthy w -> session w = Some a ->
  serve reference AuthGetUser w = (user_answer (render_user a), w).
Proof.
  intros Hh Hs. rewrite (reference_getUser w Hh).
  unfold current_user, session_problem. rewrite Hs. reflexivity.
Qed.

Lemma reference_savePageContent (s : state backend) (a : account) (name content : string) :
  healthy (world s) -> session (world s) = Some a ->
  exists issued,
    contentAPI.savePageContent reference (JStr name) (JStr content) s =
      (Returned (outcome JNull JNull),
       mkState (saved (world s) a name content) (calls s ++ issued) (console s)).
Proof.
  intros Hh Hs. eexists.
  apply (savePageContent_writes reference (JStr name) (JStr content) s
           (render_user a) JNull JNull (clock (world s) (ticks (world s)))
           (world s) (with_ticks (world s) (S (ticks (world s))))).
  - apply reference_signed_in; assumption.
  - reflexivity.
  - reflexivity.
  - apply reference_save_query. apply healthy_with_ticks. exact Hh.
  - reflexivity.
Qed.

(** C5: on the reference platform, with a principal signed in and page names
    unique, saving [c1] and then [c2] under the same name and then loading
    that name returns [c2]; afterwards exactly one row carries the name, and
    its content is [c2]. *)
Theorem save_twice_then_load (w : backend) (a : account) (pageName c1 c2 : string) :
  healthy w ->
  session w = Some a ->
  NoDup (map nombre (paginas w)) ->
  exists stamp s',
    (contentAPI.savePageContent reference (JStr pageName) (JStr c1) ;;;
     contentAPI.savePageContent reference (JStr pageName) (JStr c2) ;;;
     contentAPI.loadPageContent reference (JStr pageName)) (start w)
    = (Returned (outcome (JObj [("contenido_html", JStr c2);
                                ("actualizado_en", JStr stamp)]) JNull), s')
    /\ page_rows pageName (paginas (world s'))
       = [mkPage pageName c2 (user_id a) stamp]
    /\ console s' = [].
Proof.
  intros Hh Hs Hnd.
  destruct (reference_savePageContent (start w) a pageName c1 Hh Hs) as [i1 E1].
  cbn [start world calls console app] in E1.
  set (w1 := saved w a pageName c1) in *.
  assert (Hh1 : healthy w1) by (intros r; exact (Hh r)).
  assert (Hs1 : session w1 = Some a) by exact Hs.
  assert (Hnd1 : NoDup (map nombre (paginas w1))) by (apply put_page_NoDup; exact Hnd).
  destruct (reference_savePageContent (mkState w1 i1 []) a pageName c2 Hh1 Hs1)
    as [i2 E2].
  cbn [world calls console] in E2.
  set (w2 := saved w1 a pageName c2) in *.
  set (fresh := mkPage pageName c2 (user_id a) (clock w1 (ticks w1))).
  assert (Hrows : page_rows pageName (paginas w2) = [fresh]).
  { exact (page_rows_put_page fresh (paginas w1) Hnd1). }
  exists (clock w1 (ticks w1)). eexists.
  split; [| split].
  - unfold bind. rewrite E1. cbv beta iota. rewrite E2. cbv beta iota.
    apply loadPageContent_answered with (problem := JNull); [| left; reflexivity].
    simpl world.
    rewrite (reference_load_query w2 pageName) by (intros r; exact (Hh r)).
    rewrite Hrows. reflexivity.
  - simpl. exact Hrows.
  - reflexivity.
Qed.

(** ** Updating a role as an administrator *)

Lemma reference_updateUserRole (w : backend) (a : account) (p : profile)
    (userId newRole : string) :
  healthy w ->
  session w = Some a ->
  profile_rows (user_id a) (profiles w) = [p] ->
  role p = "admin" ->
  adminAPI.updateUserRole reference (JStr userId) (JStr newRole) (start w) =
    (Returned (outcome JNull JNull),
     mkState (with_profiles w (set_role userId newRole (profiles w)))
       (role_update_calls (user_id a) userId newRole) []).
Proof.
  intros Hh Hs Hrows Hadmin.
  apply (updateUserRole_writes reference (JStr userId) (JStr newRole) (start w)
           (render_user a) (JObj [("role", JStr (role p))]) JNull JNull JNull w w).
  - apply reference_signed_in; assumption.
  - reflexivity.
  - change (prop (render_user a) "id") with (JStr (user_id a)).
    rewrite (reference_role_query w (user_id a) Hh), Hrows. reflexivity.
  - simpl. rewrite Hadmin. reflexivity.
  - apply reference_update_role. exact Hh.
  - reflexivity.
Qed.

Lemma set_role_writes (userId newRole : string) (rows : list profile) (t : profile) :
  In t (set_role userId newRole rows) -> profile_id t = userId -> role t = newRole.
Proof.
  unfold set_role. intros Hin Hid.
  apply in_map_iff in Hin. destruct Hin as (t0 & Ht & _).
  destruct (profile_id t0 =? userId) eqn:E.
  - subst t. reflexivity.
  - subst t. apply String.eqb_neq in E. contradiction.
Qed.

Lemma set_role_keeps (userId newRole : string) (rows : list profile) (t : profile) :
  In t rows -> profile_id t = userId ->
  In (mkProfile userId (email t) newRole (created_at t)) (set_role userId newRole rows).
Proof.
  unfold set_role. intros Hin Hid.
  apply in_map_iff. exists t. split; [| exact Hin].
  rewrite Hid, String.eqb_refl. reflexivity.
Qed.

Lemma set_role_absent (userId newRole : string) (rows : list profile) :
  (forall t, In t rows -> profile_id t <> userId) -> set_role userId newRole rows = rows.
Proof.
  unfold set_role. induction rows as [| t rows IH]; intros Hnone; simpl.
  - reflexivity.
  - rewrite IH by (intros t' Hin; apply Hnone; right; exact Hin).
    destruct (profile_id t =? userId) eqn:E; [| reflexivity].
    apply String.eqb_eq in E. exfalso. apply (Hnone t); [left; reflexivity | exact E].
Qed.

(** C7: on the reference platform, an administrator's
    [updateUserRole(userId, newRole)] succeeds for any string [newRole]
    (nothing checks it against the known roles): the update request carries
    [newRole] as given, nothing is logged, and every profile of [userId] ends
    with exactly that role, its other columns kept. *)
Theorem updateUserRole_writes_any_role (w : backend) (a : account) (p : profile)
    (userId newRole : string) :
  healthy w ->
  session w = Some a ->
  profile_rows (user_id a) (profiles w) = [p] ->
  role p = "admin" ->
  exists s',
    adminAPI.updateUserRole reference (JStr userId) (JStr newRole) (start w)
      = (Returned (outcome JNull JNull), s')
    /\ calls s' = role_update_calls (user_id a) userId newRole
    /\ console s' = []
    /\ (forall t, In t (profiles w) -> profile_id t = userId ->
          In (mkProfile userId (email t) newRole (created_at t)) (profiles (world s')))
    /\ (forall t, In t (profiles (world s')) -> profile_id t = userId -> role t = newRole).
Proof.
  intros Hh Hs Hrows Hadmin.
  eexists. split; [exact (reference_updateUserRole w a p userId newRole Hh Hs Hrows Hadmin) |].
  simpl. repeat split.
  - intros t. apply set_role_keeps.
  - intros t. apply set_role_writes.
Qed.

(** C10: on the reference platform, an administrator's [updateUserRole] for
    a [userId] that no profile carries returns [{ data: null, error: null }]:
    the calls are the caller's [getUser], the caller's role lookup and the
    update itself (the target is never looked up), nothing is logged, and
    the profiles are left as they were. *)
Theorem updateUserRole_unknown_target_succeeds (w : backend) (a : account) (p : profile)
    (userId newRole : string) :
  healthy w ->
  session w = Some a ->
  profile_rows (user_id a) (profiles w) = [p] ->
  role p = "admin" ->
  (forall t, In t (profiles w) -> profile_id t <> userId) ->
  exists s',
    adminAPI.updateUserRole reference (JStr userId) (JStr newRole) (start w)
      = (Returned (outcome JNull JNull), s')
    /\ calls s' = role_update_calls (user_id a) userId newRole
    /\ console s' = []
    /\ profiles (world s') = profiles w.
Proof.
  intros Hh Hs Hrows Hadmin Habsent.
  eexists. split; [exact (reference_updateUserRole w a p userId newRole Hh Hs Hrows Hadmin) |].
  simpl. repeat split.
  apply set_role_absent. exact Habsent.
Qed.

(** ** Instances on the sample states *)

(** The sample states without outage serve every call. *)
Lemma guest_backend_healthy : healthy guest_backend.
Proof. intros r. reflexivity. Defined.

Lemma admin_backend_healthy : healthy admin_backend.
Proof. intros r. reflexivity. Defined.

Lemma history_backend_healthy : healthy history_backend.
Proof. intros r. reflexivity. Defined.

(** The three cases of C2 on the reference platform: a page that does not
    exist, a query denied by a policy, and a rejected call. *)
Lemma loadPageContent_absent_or_failed_witness :
  fst (contentAPI.loadPageContent reference (JStr "contacto") (start guest_backend))
    = Returned (outcome JNull JNull)
  /\ (fst (contentAPI.loadPageContent reference (JStr "home") (start denied_backend))
        = Returned (outcome JNull policy_denial)
      /\ populated policy_denial = true)
  /\ fst (contentAPI.loadPageContent reference (JStr "home") (start offline_backend))
       = Returned (outcome JNull fetch_failure).
Proof.
  split; [| split].
  - apply (proj1 (loadPageContent_absent_or_failed reference (JStr "contacto")
                    (start guest_backend) (Fulfilled (outcome JNull no_rows_error))
                    guest_backend eq_refl) no_rows_error); reflexivity.
  - apply (proj1 (proj2 (loadPageContent_absent_or_failed reference (JStr "home")
                           (start denied_backend) (Fulfilled (outcome JNull policy_denial))
                           denied_backend eq_refl)) JNull policy_denial);
      [reflexivity | reflexivity | discriminate].
  - apply (proj2 (proj2 (loadPageContent_absent_or_failed reference (JStr "home")
                           (start offline_backend) (Rejected fetch_failure)
                           offline_backend eq_refl)) fetch_failure).
    reflexivity.
Defined.

(** A save on a platform that answers [getUser] with a null user and no
    error; the stored page is left as it was. *)
Lemma savePageContent_unauthenticated_witness :
  contentAPI.savePageContent reference (JStr "home") (JStr "<p>hi</p>")
    (start anonymous_backend)
  = (Returned (outcome JNull (new_Error "Usuario no autenticado")),
     mkState anonymous_backend [AuthGetUser]
       [("Error en savePageContent:", new_Error "Usuario no autenticado")]).
Proof.
  apply (savePageContent_unauthenticated reference (JStr "home") (JStr "<p>hi</p>")
           (start anonymous_backend) JNull anonymous_backend); reflexivity.
Defined.

(** A signed-in principal with the role "user" calls both administrator
    functions. *)
Lemma admin_functions_reject_other_roles_witness :
  adminAPI.getUsers reference (start member_backend)
  = (Returned (outcome JNull (new_Error "No autorizado")),
     mkState member_backend
       [AuthGetUser; Query (adminAPI.role_query (JStr "u-beto"))]
       [("Error en getUsers:", new_Error "No autorizado")])
  /\ adminAPI.updateUserRole reference (JStr "u-beto") (JStr "admin") (start member_backend)
  = (Returned (outcome JNull (new_Error "No autorizado")),
     mkState member_backend
       [AuthGetUser; Query (adminAPI.role_query (JStr "u-beto"))]
       [("Error en updateUserRole:", new_Error "No autorizado")]).
Proof.
  apply (admin_functions_reject_other_roles reference (JStr "u-beto") (JStr "admin")
           (start member_backend) (render_user beto) (JObj [("role", JStr "user")])
           JNull member_backend member_backend);
    [reflexivity | reflexivity | reflexivity | reflexivity | discriminate].
Defined.

(** A signed-in principal without a profile row calls both administrator
    functions. *)
Lemma admin_functions_reject_missing_profile_witness :
  populated (type_error JNull "role") = true
  /\ adminAPI.getUsers reference (start orphan_backend)
  = (Returned (outcome JNull (type_error JNull "role")),
     mkState orphan_backend
       [AuthGetUser; Query (adminAPI.role_query (JStr "u-beto"))]
       [("Error en getUsers:", type_error JNull "role")])
  /\ adminAPI.updateUserRole reference (JStr "u-ana") (JStr "user") (start orphan_backend)
  = (Returned (outcome JNull (type_error JNull "role")),
     mkState orphan_backend
       [AuthGetUser; Query (adminAPI.role_query (JStr "u-beto"))]
       [("Error en updateUserRole:", type_error JNull "role")]).
Proof.
  apply (admin_functions_reject_missing_profile reference (JStr "u-ana") (JStr "user")
           (start orphan_backend) (render_user beto) JNull no_rows_error
           orphan_backend orphan_backend); reflexivity.
Defined.

(** The administrator saves "home" twice and loads it. *)
Lemma save_twice_then_load_witness :
  exists stamp s',
    (contentAPI.savePageContent reference (JStr "home") (JStr "<p>uno</p>") ;;;
     contentAPI.savePageContent reference (JStr "home") (JStr "<p>dos</p>") ;;;
     contentAPI.loadPageContent reference (JStr "home")) (start admin_backend)
    = (Returned (outcome (JObj [("contenido_html", JStr "<p>dos</p>");
                                ("actualizado_en", JStr stamp)]) JNull), s')
    /\ page_rows "home" (paginas (world s'))
       = [mkPage "home" "<p>dos</p>" (user_id ana) stamp]
    /\ console s' = [].
Proof.
  apply (save_twice_then_load admin_backend ana "home" "<p>uno</p>" "<p>dos</p>").
  - exact admin_backend_healthy.
  - reflexivity.
  - simpl. constructor; [intros [] | constructor].
Defined.

(** The history of "home" among the rows of two pages. *)
Lemma getPageHistory_capped_newest_first_witness :
  exists rows s',
    contentAPI.getPageHistory reference (JStr "home") (start history_backend)
      = (Returned (outcome (JArr (map (render history_columns) rows)) JNull), s')
    /\ List.length (map (render history_columns) rows) <= 10
    /\ newest_first (map (render history_columns) rows)
    /\ (forall r, In r rows ->
          In r (pagina_historial (world (start history_backend)))
          /\ nombre_pagina r = "home").
Proof.
  apply (getPageHistory_capped_newest_first "home" (start history_backend)).
  exact history_backend_healthy.
Defined.

(** The scenario of the spec: the administrator gives a profile the role
    "editor", which is no known role. *)
Lemma updateUserRole_writes_any_role_witness :
  exists s',
    adminAPI.updateUserRole reference (JStr "u-beto") (JStr "editor") (start admin_backend)
      = (Returned (outcome JNull JNull), s')
    /\ calls s' = role_update_calls (user_id ana) "u-beto" "editor"
    /\ console s' = []
    /\ (forall t, In t (profiles admin_backend) -> profile_id t = "u-beto" ->
          In (mkProfile "u-beto" (email t) "editor" (created_at t)) (profiles (world s')))
    /\ (forall t, In t (profiles (world s')) -> profile_id t = "u-beto" ->
          role t = "editor").
Proof.
  apply (updateUserRole_writes_any_role admin_backend ana
           (mkProfile "u-ana" "ana@residuos.org" "admin" "2024-01-01T00:00:00.000Z")
           "u-beto" "editor").
  - exact admin_backend_healthy.
  - reflexivity.
  - reflexivity.
  - reflexivity.
Defined.

(** The administrator updates the role of an id that no profile carries. *)
Lemma updateUserRole_unknown_target_succeeds_witness :
  exists s',
    adminAPI.updateUserRole reference (JStr "u-nadie") (JStr "admin") (start admin_backend)
      = (Returned (outcome JNull JNull), s')
    /\ calls s' = role_update_calls (user_id ana) "u-nadie" "admin"
    /\ console s' = []
    /\ profiles (world s') = profiles admin_backend.
Proof.
  apply (updateUserRole_unknown_target_succeeds admin_backend ana
           (mkProfile "u-ana" "ana@residuos.org" "admin" "2024-01-01T00:00:00.000Z")
           "u-nadie" "admin").
  - exact admin_backend_healthy.
  - reflexivity.
  - reflexivity.
  - reflexivity.
  - simpl. intros t [<- | [<- | []]]; discriminate.
Defined.

(** * Further properties of the module *)

(** ** Loading *)

Lemma truthy_env_value (v : option string) :
  truthy (env_value v) = true <-> exists s, v = Some s /\ s <> "".
Proof.
  destruct v as [s |]; simpl.
  - rewrite negb_true_iff. split.
    + intros E. exists s. split; [reflexivity | apply String.eqb_neq; exact E].
    + intros (s' & E & Hs). inversion E; subst. apply String.eqb_neq. exact Hs.
  - split; [discriminate | intros (s & E & _); discriminate E].
Qed.

(** X1: If either environment variable is unset or empty, loading the module
    throws the configuration error, whatever [createClient] would do: it is
    not reached.  When both are set and non-empty, the outcome of loading is
    exactly that of [createClient] called with the two values and the fixed
    options, so loading can still fail there. *)
Theorem load_module_needs_both_settings {C : Type}
    (createClient : jsval -> jsval -> jsval -> completion C) (url key : option string) :
  ((exists u k, url = Some u /\ key = Some k /\ u <> "" /\ k <> "") ->
   load_module createClient (env_value url) (env_value key)
     = createClient (env_value url) (env_value key) client_options)
  /\ (~ (exists u k, url = Some u /\ key = Some k /\ u <> "" /\ k <> "") ->
      load_module createClient (env_value url) (env_value key)
        = Thrown missing_configuration).
Proof.
  unfold load_module. split.
  - intros (u & k & Hu & Hk & Hu' & Hk').
    assert (Tu : truthy (env_value url) = true)
      by (apply truthy_env_value; exists u; split; assumption).
    assert (Tk : truthy (env_value key) = true)
      by (apply truthy_env_value; exists k; split; assumption).
    rewrite Tu, Tk. reflexivity.
  - intros Hnot.
    destruct (truthy (env_value url)) eqn:Tu; [| reflexivity].
    destruct (truthy (env_value key)) eqn:Tk; [| reflexivity].
    exfalso. apply Hnot.
    apply truthy_env_value in Tu. apply truthy_env_value in Tk.
    destruct Tu as (u & Hu & Hu'). destruct Tk as (k & Hk & Hk').
    exists u, k. repeat split; assumption.
Qed.

(** ** One awaited call *)

Ltac crunch :=
  repeat match goal with
    | |- context [serve ?H ?r ?w] =>
        let E := fresh "Hserve" in
        destruct (serve H r w) as [[? | ?] ?] eqn:E; simpl
    | |- context [date_now ?H ?w] =>
        let E := fresh "Hnow" in destruct (date_now H w) as [? ?] eqn:E; simpl
    | |- context [window_origin ?H ?w] =>
        let E := fresh "Horigin" in destruct (window_origin H w) eqn:E; simpl
    | |- context [if ?b then _ else _] =>
        let E := fresh "Htest" in destruct b eqn:E; simpl
    end.

Ltac unfold_api :=
  unfold invoke;
  unfold contentAPI.savePageContent, contentAPI.loadPageContent,
    contentAPI.getPageHistory, adminAPI.getUsers, adminAPI.updateUserRole;
  unfold authAPI.signUp, authAPI.signIn, authAPI.signOut, authAPI.getSession,
    authAPI.getUser, authAPI.resetPassword;
  unfold now_iso, origin;
  run_call.

(** X2: The functions with one request send exactly that request, once,
    whatever it settles to, and leave the world as the call left it. *)
Theorem one_remote_call {W} (H : Host W) (op : operation) (r : request) (s : state W) :
  request_of op = Some r ->
  calls (snd (invoke H op s)) = (calls s ++ [r])%list
  /\ world (snd (invoke H op s)) = snd (serve H r (world s)).
Proof.
  intros Hreq.
  destruct op; simpl in Hreq; inversion Hreq; subst; clear Hreq;
    unfold metadata_sent; unfold_api; crunch; split; reflexivity.
Qed.

(** X3: When the platform reports an error that the function does not swallow,
    the function returns that very error with [data: null] (whatever data
    came with it) and logs it under its own label. *)
Theorem reported_error_is_returned {W} (H : Host W) (op : operation) (r : request)
    (s : state W) (v : jsval) (w' : W) :
  request_of op = Some r ->
  serve H r (world s) = (Fulfilled v, w') ->
  nullish v = false ->
  truthy (prop v "error") = true ->
  swallowed op (prop v "error") = false ->
  invoke H op s =
    (Returned (failure_value op (prop v "error")),
     mkState w' (calls s ++ [r]) (console s ++ [(label_of op, prop v "error")])).
Proof.
  intros Hreq Hserve Hv He Hsw.
  pose proof (truthy_not_nullish _ He) as Hn.
  destruct op; simpl in Hreq; inversion Hreq; subst; clear Hreq;
    unfold metadata_sent in *; unfold_api; rewrite Hserve; simpl;
    rewrite Hv; simpl; rewrite ?He; simpl; try reflexivity.
  rewrite Hn. simpl. simpl in Hsw. apply negb_false_iff in Hsw.
  rewrite Hsw. reflexivity.
Qed.

(** X4: When the platform reports no error, or one the function swallows, the
    function returns the platform's data untouched with [error: null]
    (a falsy error such as [undefined] or [0] becomes [null]) and logs
    nothing. *)
Theorem answered_data_is_returned {W} (H : Host W) (op : operation) (r : request)
    (s : state W) (v : jsval) (w' : W) :
  request_of op = Some r ->
  serve H r (world s) = (Fulfilled v, w') ->
  nullish v = false ->
  truthy (prop v "error") = false \/ swallowed op (prop v "error") = true ->
  invoke H op s =
    (Returned (success_value op (prop v "data")),
     mkState w' (calls s ++ [r]) (console s)).
Proof.
  intros Hreq Hserve Hv He.
  destruct op; simpl in Hreq; inversion Hreq; subst; clear Hreq;
    unfold metadata_sent in *; unfold_api; rewrite Hserve; simpl; rewrite Hv; simpl;
    try (destruct He as [He | He]; [rewrite He; reflexivity | discriminate He]).
  destruct (truthy (prop v "error")) eqn:Ht; simpl.
  - destruct He as [He | He]; [discriminate He |].
    rewrite (truthy_not_nullish _ Ht). simpl. simpl in He.
    apply negb_true_iff in He. rewrite He. reflexivity.
  - reflexivity.
Qed.

(** X5: When the awaited call rejects, the function returns the reason of the
    rejection as its error and logs it under its own label. *)
Theorem rejection_is_returned {W} (H : Host W) (op : operation) (r : request)
    (s : state W) (reason : jsval) (w' : W) :
  request_of op = Some r ->
  serve H r (world s) = (Rejected reason, w') ->
  invoke H op s =
    (Returned (failure_value op reason),
     mkState w' (calls s ++ [r]) (console s ++ [(label_of op, reason)])).
Proof.
  intros Hreq Hserve.
  destruct op; simpl in Hreq; inversion Hreq; subst; clear Hreq;
    unfold metadata_sent in *; unfold_api; rewrite Hserve; reflexivity.
Qed.

(** X6: When the awaited call fulfils with [null] or [undefined] instead of a
    record, destructuring it throws inside the [try]: the function returns a
    [TypeError] as its error, logged under its own label. *)
Theorem malformed_answer_is_caught {W} (H : Host W) (op : operation) (r : request)
    (s : state W) (v : jsval) (w' : W) :
  request_of op = Some r ->
  serve H r (world s) = (Fulfilled v, w') ->
  nullish v = true ->
  exists e,
    prop e "name" = JStr "TypeError"
    /\ invoke H op s =
       (Returned (failure_value op e),
        mkState w' (calls s ++ [r]) (console s ++ [(label_of op, e)])).
Proof.
  intros Hreq Hserve Hv.
  destruct op; simpl in Hreq; inversion Hreq; subst; clear Hreq;
    unfold metadata_sent in *; unfold_api; rewrite Hserve; simpl; rewrite Hv;
    eexists; (split; [| reflexivity]); reflexivity.
Qed.

(** ** resetPassword and the browser *)

(** X7: Outside a browser there is no [window]: [resetPassword] returns the
    [ReferenceError] as its error and sends nothing to the platform. *)
Theorem resetPassword_outside_browser {W} (H : Host W) (email : jsval) (s : state W) :
  window_origin H (world s) = None ->
  authAPI.resetPassword H email s =
    (Returned (outcome JNull (reference_error "window")),
     mkState (world s) (calls s)
       (console s ++ [("Error en resetPassword:", reference_error "window")])).
Proof.
  intros Horigin. unfold_api. rewrite Horigin. reflexivity.
Qed.

(** In a browser, [resetPassword] sends one request, for the address given,
    whose redirect target is the page origin followed by
    [/update-password]. *)
Theorem resetPassword_redirects_to_origin {W} (H : Host W) (email : jsval)
    (s : state W) (o : string) :
  window_origin H (world s) = Some o ->
  calls (snd (authAPI.resetPassword H email s)) =
    (calls s ++ [AuthResetPasswordForEmail email
                   (JObj [("redirectTo", JStr (o ++ "/update-password"))])])%list.
Proof.
  intros Horigin. unfold_api. rewrite Horigin. simpl. crunch; reflexivity.
Qed.

(** ** What is logged *)

Lemma settles_labelled {W} (body : M W jsval) (label : string) (build : jsval -> jsval)
    (s : state W) :
  ends_with success_shaped body ->
  (forall e, prop (build e) "error" = e) ->
  forall v s',
    try_catch body (fun e => console_error label e ;;; ret (build e)) s = (Returned v, s') ->
    populated (prop v "error") = true ->
    exists l, console s' = (l ++ [(label, prop v "error")])%list.
Proof.
  intros Hbody Hbuild v s' E Hpop.
  destruct (try_catch_settles body label build s)
    as (v0 & s0 & E0 & [[s1 Hs] | (e & s1 & _ & Hv & Hc)]);
    rewrite E in E0; injection E0 as <- <-.
  - exfalso. destruct (Hbody _ _ _ Hs) as [[d ->] | ->]; discriminate Hpop.
  - exists (console s1). rewrite Hv, Hbuild. exact Hc.
Qed.

(** X8: Whenever a function returns a non-null error, that very value is the last
    line of the diagnostic log, under the label of the function. *)
Theorem returned_error_was_logged {W} (H : Host W) (op : operation) (s : state W)
    (v : jsval) (s' : state W) :
  invoke H op s = (Returned v, s') ->
  populated (prop v "error") = true ->
  exists l, console s' = (l ++ [(label_of op, prop v "error")])%list.
Proof.
  destruct op; simpl;
    first [ apply (settles_labelled _ _ (outcome JNull)); [| reflexivity]
          | apply (settles_labelled _ _ outcome_error_only); [| reflexivity] ];
    ends.
Qed.

(** ** What is sent *)

Ltac pick_request :=
  simpl;
  let Hin := fresh "Hin" in
  let Hw := fresh "Hw" in
  intros Hin Hw;
  repeat (destruct Hin as [<- | Hin]; [try discriminate Hw |]);
  try contradiction.

Ltac settle_request :=
  simpl;
  let Hin := fresh "Hin" in
  intros Hin;
  repeat (destruct Hin as [<- | Hin]; [split; [| split] |]);
  try contradiction;
  simpl;
  try discriminate;
  try reflexivity;
  eauto 6;
  try (intros _;
       first [ left; eexists _, _, _, _; split; reflexivity
             | right; eexists _, _; split; reflexivity ]).

(** X9: Every request a function sends is one of its own kind.  So a request
    that asks the platform to change something (a principal, a session, a
    password reset, rows of a table) is only ever sent by one of the six
    functions that exist for that, and a row-changing query only by
    [savePageContent] (its upsert) and [updateUserRole] (its update);
    [getSession], [getUser], [loadPageContent], [getPageHistory] and
    [getUsers] change nothing. *)
Theorem requests_are_own {W} (H : Host W) (op : operation) (w : W) (r : request) :
  In r (trace H op w) ->
  may_send op r
  /\ (changes_state r = true -> mutating op = true)
  /\ (is_write r = true ->
      (exists pageName content user_id stamp,
          op = SavePageContent pageName content
          /\ r = Query (contentAPI.save_query pageName content user_id stamp))
      \/ (exists userId newRole,
             op = UpdateUserRole userId newRole
             /\ r = Query (adminAPI.update_role_query userId newRole))).
Proof.
  unfold trace, start.
  destruct op; unfold metadata_sent; unfold_api; crunch; settle_request.
Qed.

(** ** What the gates let through *)

Lemma strict_neq_str_false (v : jsval) (lit : string) :
  strict_neq_str v lit = false -> v = JStr lit.
Proof.
  destruct v; simpl; try discriminate.
  rewrite negb_false_iff. intros E. apply String.eqb_eq in E. subst. reflexivity.
Qed.

Ltac confirm :=
  repeat match goal with
    | E : negb _ = false |- _ => apply negb_false_iff in E
    | E : strict_neq_str _ _ = false |- _ => apply strict_neq_str_false in E
    end;
  unfold admin_confirmed, reported_user;
  repeat eexists; eauto.

(** X10: The functions of [adminAPI] send their own request (the listing, the role
    update) only after [getUser] reported a user without error and the role
    lookup for that user answered ['admin']. *)
Theorem guarded_request_needs_admin {W} (H : Host W) (op : operation) (w : W)
    (r : request) :
  guarded_request op = Some r ->
  In r (trace H op w) ->
  admin_confirmed H w.
Proof.
  unfold trace, start. intros Hreq.
  destruct op; simpl in Hreq; inversion Hreq; subst; clear Hreq;
    unfold_api; crunch; simpl; intros Hin;
    repeat (destruct Hin as [Hin | Hin]; [try discriminate Hin |]);
    try contradiction; confirm.
Qed.

(** X11: [savePageContent] sends its upsert only after [getUser] reported a user
    without error; the row it sends carries the page name and content as
    given, the id of that user, and the one clock reading taken for it. *)
Theorem upsert_needs_user {W} (H : Host W) (pageName content : jsval) (w : W)
    (r : request) :
  In r (trace H (SavePageContent pageName content) w) ->
  is_write r = true ->
  exists r1 w1 stamp w2,
    serve H AuthGetUser w = (Fulfilled r1, w1)
    /\ truthy (prop r1 "error") = false
    /\ truthy (reported_user r1) = true
    /\ date_now H w1 = (stamp, w2)
    /\ r = Query (contentAPI.save_query pageName content
                    (prop (reported_user r1) "id") stamp).
Proof.
  unfold trace, start. unfold_api. crunch; pick_request; confirm.
Qed.

(** X12: Without a signed-in principal ([getUser] reports no user), [getUsers] and
    [updateUserRole] both return the error "No autenticado"; the only call
    issued is [getUser], so no profile is read or changed. *)
Theorem admin_functions_reject_unauthenticated {W} (H : Host W) (userId newRole : jsval)
    (s : state W) (user : jsval) (w' : W) :
  serve H AuthGetUser (world s) = (user_answer user, w') ->
  truthy user = false ->
  let refused := new_Error "No autenticado" in
  adminAPI.getUsers H s =
    (Returned (outcome JNull refused),
     mkState w' (calls s ++ [AuthGetUser]) (console s ++ [("Error en getUsers:", refused)]))
  /\ adminAPI.updateUserRole H userId newRole s =
    (Returned (outcome JNull refused),
     mkState w' (calls s ++ [AuthGetUser])
       (console s ++ [("Error en updateUserRole:", refused)])).
Proof.
  intros Hserve Huser refused.
  split; unfold_api; rewrite Hserve; unfold user_answer; simpl; rewrite Huser;
    reflexivity.
Qed.

(** X13: When [getUser] reports an error, the three functions that start with it
    do not return that error: reading [user] of the null data throws, and the
    caller gets that [TypeError].  The reported error only reaches the log,
    one line before the [TypeError]; no further call is issued. *)
Theorem getUser_failure_is_masked {W} (H : Host W)
    (pageName content userId newRole : jsval) (s : state W) (data problem : jsval)
    (w' : W) :
  serve H AuthGetUser (world s) = (Fulfilled (outcome data problem), w') ->
  truthy problem = true ->
  let masked := type_error JNull "user" in
  let after label :=
    mkState w' (calls s ++ [AuthGetUser])
      (console s ++ [("Error en getUser:", problem); (label, masked)]) in
  contentAPI.savePageContent H pageName content s
    = (Returned (outcome JNull masked), after "Error en savePageContent:")
  /\ adminAPI.getUsers H s
    = (Returned (outcome JNull masked), after "Error en getUsers:")
  /\ adminAPI.updateUserRole H userId newRole s
    = (Returned (outcome JNull masked), after "Error en updateUserRole:").
Proof.
  intros Hserve Hproblem masked after.
  split; [| split]; unfold_api; rewrite Hserve; simpl; rewrite Hproblem; simpl;
    unfold bind; simpl; subst after; simpl; rewrite <- app_assoc; reflexivity.
Qed.

(** X14: For an administrator, [getUsers] returns the data of the listing as the
    platform gave it, after three calls and without logging.  The error field
    of the role lookup plays no part: the gate looks at the looked-up data
    only. *)
Theorem getUsers_lists_for_admin {W} (H : Host W) (s : state W)
    (user profile problem data problem' : jsval) (w1 w2 w3 : W) :
  serve H AuthGetUser (world s) = (user_answer user, w1) ->
  truthy user = true ->
  serve H (Query (adminAPI.role_query (prop user "id"))) w1
    = (Fulfilled (outcome profile problem), w2) ->
  prop profile "role" = JStr "admin" ->
  serve H (Query adminAPI.users_query) w2 = (Fulfilled (outcome data problem'), w3) ->
  truthy problem' = false ->
  adminAPI.getUsers H s =
    (Returned (outcome data JNull),
     mkState w3
       (calls s ++ [AuthGetUser; Query (adminAPI.role_query (prop user "id"));
                    Query adminAPI.users_query])
       (console s)).
Proof.
  intros Huser Htruthy Hrole Hadmin Hlist Hproblem.
  assert (Hprofile : nullish profile = false).
  { destruct profile; simpl in Hadmin; try discriminate Hadmin. reflexivity. }
  unfold_api. rewrite Huser. unfold user_answer. simpl.
  rewrite Htruthy, (truthy_not_nullish user Htruthy). simpl.
  rewrite Hrole. simpl. rewrite Hprofile, Hadmin. simpl.
  rewrite Hlist. simpl. rewrite Hproblem.
  rewrite <- !app_assoc. reflexivity.
Qed.

(** ** The listing, on the reference platform *)

Lemma insert_by_perm {R} (le : R -> R -> bool) (x : R) (l : list R) :
  Permutation (x :: l) (insert_by le x l).
Proof.
  induction l as [| y l IH]; simpl.
  - apply Permutation_refl.
  - destruct (le x y).
    + apply Permutation_refl.
    + apply perm_trans with (y :: x :: l); [apply perm_swap |].
      apply perm_skip. exact IH.
Qed.

Lemma sort_by_perm {R} (le : R -> R -> bool) (l : list R) :
  Permutation l (sort_by le l).
Proof.
  induction l as [| x l IH]; simpl.
  - apply perm_nil.
  - apply perm_trans with (x :: sort_by le l); [apply perm_skip; exact IH |].
    apply insert_by_perm.
Qed.

Lemma filter_all {A} (l : list A) : filter (fun _ => true) l = l.
Proof. induction l as [| x l IH]; simpl; [reflexivity | rewrite IH; reflexivity]. Qed.

Lemma reference_users_query (w : backend) :
  healthy w ->
  serve reference (Query adminAPI.users_query) w =
    (Fulfilled (outcome (JArr (map (render profile_columns)
                                   (listed_profiles (profiles w)))) JNull), w).
Proof.
  intros Hh. simpl. unfold reference_serve. rewrite Hh. cbn.
  change (filter (matches []) (profiles w)) with (filter (fun _ => true) (profiles w)).
  rewrite filter_all, with_profiles_same. reflexivity.
Qed.

Lemma reference_signOut (w : backend) :
  healthy w ->
  serve reference AuthSignOut w
    = (Fulfilled (outcome_error_only JNull), with_session w None).
Proof. intros Hh. simpl. unfold reference_serve. rewrite Hh. reflexivity. Qed.

#[local] Arguments serve {W} _ _ _ : simpl never.

(** X15: On the reference platform, an administrator's [getUsers] returns every
    profile exactly once (the listing is not capped), the newest-created
    first, and changes no profile. *)
Theorem getUsers_lists_every_profile (w : backend) (a : account) (p : profile) :
  healthy w ->
  session w = Some a ->
  profile_rows (user_id a) (profiles w) = [p] ->
  role p = "admin" ->
  exists rows s',
    adminAPI.getUsers reference (start w)
      = (Returned (outcome (JArr (map (render profile_columns) rows)) JNull), s')
    /\ Permutation (profiles w) rows
    /\ Sorted (fun x y => (created_at y <=? created_at x) = true) rows
    /\ profiles (world s') = profiles w.
Proof.
  intros Hh Hs Hrows Hadmin.
  exists (listed_profiles (profiles w)). eexists.
  split; [| split; [| split]].
  - unfold_api.
    rewrite (reference_signed_in w a Hh Hs). unfold user_answer. simpl.
    rewrite (reference_role_query w (user_id a) Hh), Hrows. simpl. rewrite Hadmin. simpl.
    rewrite (reference_users_query w Hh). reflexivity.
  - apply sort_by_perm.
  - apply (sort_by_sorted (fun x y => created_at y <=? created_at x)).
    intros x y. apply string_leb_total.
  - reflexivity.
Qed.

(** ** Composing calls, on the reference platform *)

Lemma page_rows_put_other (fresh : page) (name : string) (rows : list page) :
  nombre fresh <> name ->
  page_rows name (put_page fresh rows) = page_rows name rows.
Proof.
  intros Hother. unfold put_page, page_rows.
  assert (Hfresh : (nombre fresh =? name) = false) by (apply String.eqb_neq; exact Hother).
  destruct (existsb _ rows).
  - induction rows as [| r rows IH]; simpl; [reflexivity |].
    destruct (nombre r =? nombre fresh) eqn:E.
    + apply String.eqb_eq in E. rewrite Hfresh, E, Hfresh. exact IH.
    + rewrite IH. reflexivity.
  - rewrite filter_app. simpl. rewrite Hfresh. apply app_nil_r.
Qed.

Lemma reference_loadPageContent (name : string) (s : state backend) :
  healthy (world s) ->
  fst (contentAPI.loadPageContent reference (JStr name) s) =
    Returned (match page_rows name (paginas (world s)) with
              | [r] => outcome (JObj [("contenido_html", JStr (contenido_html r));
                                      ("actualizado_en", JStr (actualizado_en r))]) JNull
              | _ => outcome JNull JNull
              end).
Proof.
  intros Hh.
  destruct (page_rows name (paginas (world s))) as [| r [| r' l]] eqn:Hrows.
  - rewrite (loadPageContent_answered reference (JStr name) s JNull no_rows_error (world s));
      [reflexivity | | right; reflexivity].
    rewrite (reference_load_query (world s) name Hh), Hrows. reflexivity.
  - rewrite (loadPageContent_answered reference (JStr name) s
               (JObj [("contenido_html", JStr (contenido_html r));
                      ("actualizado_en", JStr (actualizado_en r))]) JNull (world s));
      [reflexivity | | left; reflexivity].
    rewrite (reference_load_query (world s) name Hh), Hrows. reflexivity.
  - rewrite (loadPageContent_answered reference (JStr name) s JNull no_rows_error (world s));
      [reflexivity | | right; reflexivity].
    rewrite (reference_load_query (world s) name Hh), Hrows. reflexivity.
Qed.

(** X16: On the reference platform, saving a page leaves every other page as it
    was: loading another name after the save returns what it returned
    before. *)
Theorem save_leaves_other_pages (w : backend) (a : account)
    (pageName content other : string) :
  healthy w ->
  session w = Some a ->
  pageName <> other ->
  fst ((contentAPI.savePageContent reference (JStr pageName) (JStr content) ;;;
        contentAPI.loadPageContent reference (JStr other)) (start w))
  = fst (contentAPI.loadPageContent reference (JStr other) (start w)).
Proof.
  intros Hh Hs Hother.
  destruct (reference_savePageContent (start w) a pageName content Hh Hs) as [i E].
  unfold bind. rewrite E. cbv beta iota.
  rewrite !reference_loadPageContent; [| exact Hh | intros r; exact (Hh r)].
  cbn [world start]. unfold saved. cbn [paginas with_paginas].
  rewrite page_rows_put_other by exact Hother. reflexivity.
Qed.

(** X17: On the reference platform, after [signOut] a [savePageContent]
    writes nothing, whoever was signed in before: the only calls are
    [signOut] and [getUser], the function returns the [TypeError] that masks
    the missing-session error, nobody is signed in and the pages are left as
    they were. *)
Theorem signOut_then_save_is_refused (w : backend) (pageName content : jsval) :
  healthy w ->
  exists s',
    (authAPI.signOut reference ;;;
     contentAPI.savePageContent reference pageName content) (start w)
    = (Returned (outcome JNull (type_error JNull "user")), s')
    /\ calls s' = [AuthSignOut; AuthGetUser]
    /\ session (world s') = None
    /\ paginas (world s') = paginas w.
Proof.
  intros Hh. eexists. split; [| split; [| split]].
  - unfold bind. unfold_api. rewrite (reference_signOut w Hh). simpl.
    rewrite (reference_getUser (with_session w None)) by (intros r; exact (Hh r)).
    reflexivity.
  - reflexivity.
  - reflexivity.
  - reflexivity.
Qed.

Lemma profile_rows_set_role (uid target newRole : string) (rows : list profile) :
  profile_rows uid (set_role target newRole rows)
  = set_role target newRole (profile_rows uid rows).
Proof.
  unfold profile_rows, set_role.
  induction rows as [| t rows IH]; simpl; [reflexivity |].
  destruct (profile_id t =? target) eqn:Et; simpl;
    destruct (profile_id t =? uid) eqn:E; simpl; rewrite ?Et, IH; reflexivity.
Qed.

(** X18: On the reference platform, nothing stops an administrator from changing
    their own role: after setting it to anything but ['admin'], their next
    [getUsers] is refused with "No autorizado". *)
Theorem admin_can_lock_themselves_out (w : backend) (a : account) (p : profile)
    (newRole : string) :
  healthy w ->
  session w = Some a ->
  profile_rows (user_id a) (profiles w) = [p] ->
  role p = "admin" ->
  newRole <> "admin" ->
  fst ((adminAPI.updateUserRole reference (JStr (user_id a)) (JStr newRole) ;;;
        adminAPI.getUsers reference) (start w))
  = Returned (outcome JNull (new_Error "No autorizado")).
Proof.
  intros Hh Hs Hrows Hadmin Hother.
  unfold bind.
  rewrite (reference_updateUserRole w a p (user_id a) newRole Hh Hs Hrows Hadmin).
  cbv beta iota.
  set (w1 := with_profiles w (set_role (user_id a) newRole (profiles w))).
  assert (Hh1 : healthy w1) by (intros r; exact (Hh r)).
  assert (Hid : (profile_id p =? user_id a) = true).
  { assert (Hin : In p (profile_rows (user_id a) (profiles w)))
      by (rewrite Hrows; left; reflexivity).
    apply filter_In in Hin. exact (proj2 Hin). }
  assert (Hrows1 : profile_rows (user_id a) (profiles w1)
                   = [mkProfile (profile_id p) (email p) newRole (created_at p)]).
  { unfold w1. cbn [profiles with_profiles].
    rewrite profile_rows_set_role, Hrows. unfold set_role. simpl. rewrite Hid.
    reflexivity. }
  unfold_api.
  rewrite (reference_signed_in w1 a Hh1 Hs). unfold user_answer. simpl.
  rewrite (reference_role_query w1 (user_id a) Hh1), Hrows1. simpl.
  assert (Hneq : (newRole =? "admin") = false) by (apply String.eqb_neq; exact Hother).
  rewrite Hneq. reflexivity.
Qed.

(** ** The newest entries of a history, on the reference platform *)

Lemma string_leb_trans (a b c : string) :
  (a <=? b) = true -> (b <=? c) = true -> (a <=? c) = true.
Proof.
  unfold String.leb. intros Hab Hbc.
  destruct (a ?= b) eqn:Eab; try discriminate Hab.
  - apply OrderedTypeEx.String_as_OT.cmp_eq in Eab. subst b. exact Hbc.
  - destruct (b ?= c) eqn:Ebc; try discriminate Hbc.
    + apply OrderedTypeEx.String_as_OT.cmp_eq in Ebc. subst c. rewrite Eab. reflexivity.
    + apply OrderedTypeEx.String_as_OT.cmp_lt in Eab.
      apply OrderedTypeEx.String_as_OT.cmp_lt in Ebc.
      assert (Hac : OrderedTypeEx.String_as_OT.lt a c)
        by (eapply OrderedTypeEx.String_as_OT.lt_trans; eassumption).
      apply OrderedTypeEx.String_as_OT.cmp_lt in Hac.
      unfold OrderedTypeEx.String_as_OT.cmp in Hac. rewrite Hac. reflexivity.
Qed.

Lemma In_skipn {A} (n : nat) (l : list A) (x : A) : In x (skipn n l) -> In x l.
Proof.
  revert l. induction n as [| n IH]; intros [| y l]; simpl; try tauto.
  intros Hin. right. exact (IH l Hin).
Qed.

Lemma kept_before_dropped {A} (R : A -> A -> Prop) (n : nat) (l : list A) :
  StronglySorted R l ->
  forall x y, In x (firstn n l) -> In y (skipn n l) -> R x y.
Proof.
  revert l. induction n as [| n IH]; intros l Hs x y Hx Hy; simpl in *.
  - contradiction.
  - destruct l as [| z l]; simpl in *; [contradiction |].
    apply StronglySorted_inv in Hs. destruct Hs as [Hl Hz].
    destruct Hx as [<- | Hx].
    + rewrite Forall_forall in Hz. apply Hz.
      exact (In_skipn n l y Hy).
    + exact (IH l Hl x y Hx Hy).
Qed.

(** X19: On the reference platform, [getPageHistory] returns all the stored
    entries of the page when there are at most 10 and otherwise 10 of them,
    and these are the newest: an entry of the page that is left out is no
    newer than any returned one. *)
Theorem getPageHistory_returns_the_newest (pageName : string) (s : state backend) :
  healthy (world s) ->
  exists rows s',
    contentAPI.getPageHistory reference (JStr pageName) s
      = (Returned (outcome (JArr (map (render history_columns) rows)) JNull), s')
    /\ List.length rows
       = Nat.min 10 (List.length (history_of pageName (pagina_historial (world s))))
    /\ (forall kept dropped,
          In kept rows ->
          In dropped (history_of pageName (pagina_historial (world s))) ->
          ~ In dropped rows ->
          (h_actualizado_en dropped <=? h_actualizado_en kept) = true).
Proof.
  intros Hh.
  set (le := fun a b : history_entry => h_actualizado_en b <=? h_actualizado_en a).
  set (stored := history_of pageName (pagina_historial (world s))).
  exists (firstn 10 (sort_by le stored)). eexists.
  split; [| split].
  - apply getPageHistory_answered with (problem := JNull); [| reflexivity].
    apply reference_history_query. exact Hh.
  - rewrite length_firstn.
    rewrite <- (Permutation_length (sort_by_perm le stored)). reflexivity.
  - intros kept dropped Hkept Hstored Hout.
    assert (Hsorted : StronglySorted (below le) (sort_by le stored)).
    { apply Sorted_StronglySorted.
      - intros a b c Hab Hbc. unfold below, le in *.
        exact (string_leb_trans _ _ _ Hbc Hab).
      - apply sort_by_sorted. intros a b. apply string_leb_total. }
    apply (kept_before_dropped (below le) 10 (sort_by le stored) Hsorted kept dropped Hkept).
    assert (Hin : In dropped (sort_by le stored))
      by (apply (Permutation_in _ (sort_by_perm le stored)); exact Hstored).
    rewrite <- (firstn_skipn 10 (sort_by le stored)) in Hin.
    apply in_app_or in Hin. destruct Hin as [Hin | Hin]; [contradiction | exact Hin].
Qed.

(** ** Instances of the further properties *)

(** [getUser] on a host that rejects: one call all the same. *)
Lemma one_remote_call_witness :
  calls (snd (invoke reference GetUser (start offline_backend))) = [AuthGetUser]
  /\ world (snd (invoke reference GetUser (start offline_backend))) = offline_backend.
Proof.
  apply (one_remote_call reference GetUser AuthGetUser (start offline_backend)).
  reflexivity.
Defined.

(** A sign-in with the wrong password. *)
Lemma reported_error_is_returned_witness :
  invoke reference (SignIn (JStr "ana@residuos.org") (JStr "otra")) (start guest_backend)
  = (Returned (outcome JNull (prop (auth_failure "Invalid login credentials") "error")),
     mkState guest_backend
       [AuthSignInWithPassword
          (JObj [("email", JStr "ana@residuos.org"); ("password", JStr "otra")])]
       [("Error en signIn:", prop (auth_failure "Invalid login credentials") "error")]).
Proof.
  apply (reported_error_is_returned reference
           (SignIn (JStr "ana@residuos.org") (JStr "otra"))
           (AuthSignInWithPassword
              (JObj [("email", JStr "ana@residuos.org"); ("password", JStr "otra")]))
           (start guest_backend) (auth_failure "Invalid login credentials") guest_backend);
    reflexivity.
Defined.

(** [getSession] when nobody is signed in: the absent session is data. *)
Lemma answered_data_is_returned_witness :
  invoke reference GetSession (start guest_backend)
  = (Returned (outcome (JObj [("session", JNull)]) JNull),
     mkState guest_backend [AuthGetSession] []).
Proof.
  apply (answered_data_is_returned reference GetSession AuthGetSession
           (start guest_backend) (outcome (JObj [("session", JNull)]) JNull)
           guest_backend); [reflexivity | reflexivity | reflexivity | left; reflexivity].
Defined.

(** [signOut] on a host that rejects. *)
Lemma rejection_is_returned_witness :
  invoke reference SignOut (start offline_backend)
  = (Returned (outcome_error_only fetch_failure),
     mkState offline_backend [AuthSignOut] [("Error en signOut:", fetch_failure)]).
Proof.
  apply (rejection_is_returned reference SignOut AuthSignOut (start offline_backend)
           fetch_failure offline_backend); reflexivity.
Defined.

(** A page load answered with [null]. *)
Lemma malformed_answer_is_caught_witness :
  exists e,
    prop e "name" = JStr "TypeError"
    /\ invoke reference (LoadPageContent (JStr "home")) (start garbled_backend)
       = (Returned (failure_value (LoadPageContent (JStr "home")) e),
          mkState garbled_backend
            ([] ++ [Query (contentAPI.load_query (JStr "home"))])
            ([] ++ [(label_of (LoadPageContent (JStr "home")), e)])).
Proof.
  apply (malformed_answer_is_caught reference (LoadPageContent (JStr "home"))
           (Query (contentAPI.load_query (JStr "home"))) (start garbled_backend)
           JNull garbled_backend); reflexivity.
Defined.

(** A password reset asked from a server process. *)
Lemma resetPassword_outside_browser_witness :
  authAPI.resetPassword reference (JStr "ana@residuos.org") (start server_backend)
  = (Returned (outcome JNull (reference_error "window")),
     mkState server_backend [] [("Error en resetPassword:", reference_error "window")]).
Proof.
  apply (resetPassword_outside_browser reference (JStr "ana@residuos.org")
           (start server_backend)). reflexivity.
Defined.

(** A password reset asked from the application's page. *)
Lemma resetPassword_redirects_to_origin_witness :
  calls (snd (authAPI.resetPassword reference (JStr "ana@residuos.org")
                (start guest_backend)))
  = [AuthResetPasswordForEmail (JStr "ana@residuos.org")
       (JObj [("redirectTo", JStr "https://residuos.example/update-password")])].
Proof.
  apply (resetPassword_redirects_to_origin reference (JStr "ana@residuos.org")
           (start guest_backend) "https://residuos.example"). reflexivity.
Defined.

(** The failure of a save without a session is the last line logged. *)
Lemma returned_error_was_logged_witness :
  exists l,
    console (mkState guest_backend [AuthGetUser]
               [("Error en getUser:", session_missing);
                ("Error en savePageContent:", type_error JNull "user")])
    = (l ++ [("Error en savePageContent:", type_error JNull "user")])%list.
Proof.
  apply (returned_error_was_logged reference
           (SavePageContent (JStr "home") (JStr "<p>hi</p>")) (start guest_backend)
           (outcome JNull (type_error JNull "user"))
           (mkState guest_backend [AuthGetUser]
              [("Error en getUser:", session_missing);
               ("Error en savePageContent:", type_error JNull "user")]));
    reflexivity.
Defined.

(** The role update of the administrator went through the gate. *)
Lemma guarded_request_needs_admin_witness : admin_confirmed reference admin_backend.
Proof.
  apply (guarded_request_needs_admin reference
           (UpdateUserRole (JStr "u-beto") (JStr "editor")) admin_backend
           (Query (adminAPI.update_role_query (JStr "u-beto") (JStr "editor")))).
  - reflexivity.
  - vm_compute. right. right. left. reflexivity.
Defined.

(** The upsert of the administrator's save carries their id and the clock
    reading. *)
Lemma upsert_needs_user_witness :
  exists r1 w1 stamp w2,
    serve reference AuthGetUser admin_backend = (Fulfilled r1, w1)
    /\ truthy (prop r1 "error") = false
    /\ truthy (reported_user r1) = true
    /\ date_now reference w1 = (stamp, w2)
    /\ Query (contentAPI.save_query (JStr "home") (JStr "<p>hi</p>") (JStr "u-ana")
                "2024-05-01T10:00:00.000Z")
       = Query (contentAPI.save_query (JStr "home") (JStr "<p>hi</p>")
                  (prop (reported_user r1) "id") stamp).
Proof.
  apply (upsert_needs_user reference (JStr "home") (JStr "<p>hi</p>") admin_backend).
  - vm_compute. right. left. reflexivity.
  - reflexivity.
Defined.

(** Both administrator functions on a platform that answers [getUser] with
    a null user and no error. *)
Lemma admin_functions_reject_unauthenticated_witness :
  adminAPI.getUsers reference (start anonymous_backend)
  = (Returned (outcome JNull (new_Error "No autenticado")),
     mkState anonymous_backend [AuthGetUser]
       [("Error en getUsers:", new_Error "No autenticado")])
  /\ adminAPI.updateUserRole reference (JStr "u-beto") (JStr "admin")
       (start anonymous_backend)
  = (Returned (outcome JNull (new_Error "No autenticado")),
     mkState anonymous_backend [AuthGetUser]
       [("Error en updateUserRole:", new_Error "No autenticado")]).
Proof.
  apply (admin_functions_reject_unauthenticated reference (JStr "u-beto") (JStr "admin")
           (start anonymous_backend) JNull anonymous_backend); reflexivity.
Defined.

(** The platform reports the missing session as an error: the caller of
    [savePageContent] sees a [TypeError]. *)
Lemma getUser_failure_is_masked_witness :
  contentAPI.savePageContent reference (JStr "home") (JStr "<p>hi</p>")
    (start expired_backend)
  = (Returned (outcome JNull (type_error JNull "user")),
     mkState expired_backend [AuthGetUser]
       [("Error en getUser:", session_missing);
        ("Error en savePageContent:", type_error JNull "user")])
  /\ adminAPI.getUsers reference (start expired_backend)
  = (Returned (outcome JNull (type_error JNull "user")),
     mkState expired_backend [AuthGetUser]
       [("Error en getUser:", session_missing);
        ("Error en getUsers:", type_error JNull "user")])
  /\ adminAPI.updateUserRole reference (JStr "u-beto") (JStr "admin")
       (start expired_backend)
  = (Returned (outcome JNull (type_error JNull "user")),
     mkState expired_backend [AuthGetUser]
       [("Error en getUser:", session_missing);
        ("Error en updateUserRole:", type_error JNull "user")]).
Proof.
  apply (getUser_failure_is_masked reference (JStr "home") (JStr "<p>hi</p>")
           (JStr "u-beto") (JStr "admin") (start expired_backend)
           (JObj [("user", JNull)]) session_missing expired_backend); reflexivity.
Defined.

(** The administrator lists the two profiles. *)
Lemma getUsers_lists_for_admin_witness :
  adminAPI.getUsers reference (start admin_backend)
  = (Returned (outcome (JArr (map (render profile_columns)
                                  (listed_profiles (profiles admin_backend)))) JNull),
     mkState admin_backend
       [AuthGetUser; Query (adminAPI.role_query (JStr "u-ana"));
        Query adminAPI.users_query] []).
Proof.
  apply (getUsers_lists_for_admin reference (start admin_backend) (render_user ana)
           (JObj [("role", JStr "admin")]) JNull
           (JArr (map (render profile_columns) (listed_profiles (profiles admin_backend))))
           JNull admin_backend admin_backend admin_backend); reflexivity.
Defined.

Lemma getUsers_lists_every_profile_witness :
  exists rows s',
    adminAPI.getUsers reference (start admin_backend)
      = (Returned (outcome (JArr (map (render profile_columns) rows)) JNull), s')
    /\ Permutation (profiles admin_backend) rows
    /\ Sorted (fun x y => (created_at y <=? created_at x) = true) rows
    /\ profiles (world s') = profiles admin_backend.
Proof.
  apply (getUsers_lists_every_profile admin_backend ana
           (mkProfile "u-ana" "ana@residuos.org" "admin" "2024-01-01T00:00:00.000Z")).
  - exact admin_backend_healthy.
  - reflexivity.
  - reflexivity.
  - reflexivity.
Defined.

(** Saving "ayuda" does not change what loading "home" returns. *)
Lemma save_leaves_other_pages_witness :
  fst ((contentAPI.savePageContent reference (JStr "ayuda") (JStr "<p>faq</p>") ;;;
        contentAPI.loadPageContent reference (JStr "home")) (start admin_backend))
  = fst (contentAPI.loadPageContent reference (JStr "home") (start admin_backend)).
Proof.
  apply (save_leaves_other_pages admin_backend ana "ayuda" "<p>faq</p>" "home").
  - exact admin_backend_healthy.
  - reflexivity.
  - discriminate.
Defined.

(** The administrator signs out and then tries to save. *)
Lemma signOut_then_save_is_refused_witness :
  exists s',
    (authAPI.signOut reference ;;;
     contentAPI.savePageContent reference (JStr "home") (JStr "<p>hi</p>"))
      (start admin_backend)
    = (Returned (outcome JNull (type_error JNull "user")), s')
    /\ calls s' = [AuthSignOut; AuthGetUser]
    /\ session (world s') = None
    /\ paginas (world s') = paginas admin_backend.
Proof.
  apply (signOut_then_save_is_refused admin_backend (JStr "home") (JStr "<p>hi</p>")).
  exact admin_backend_healthy.
Defined.

(** The administrator makes themselves a plain user, then lists the users. *)
Lemma admin_can_lock_themselves_out_witness :
  fst ((adminAPI.updateUserRole reference (JStr (user_id ana)) (JStr "user") ;;;
        adminAPI.getUsers reference) (start admin_backend))
  = Returned (outcome JNull (new_Error "No autorizado")).
Proof.
  apply (admin_can_lock_themselves_out admin_backend ana
           (mkProfile "u-ana" "ana@residuos.org" "admin" "2024-01-01T00:00:00.000Z")
           "user").
  - exact admin_backend_healthy.
  - reflexivity.
  - reflexivity.
  - reflexivity.
  - discriminate.
Defined.

(** The history of "home": three stored entries, all returned. *)
Lemma getPageHistory_returns_the_newest_witness :
  exists rows s',
    contentAPI.getPageHistory reference (JStr "home") (start history_backend)
      = (Returned (outcome (JArr (map (render history_columns) rows)) JNull), s')
    /\ List.length rows
       = Nat.min 10 (List.length
                       (history_of "home" (pagina_historial (world (start history_backend)))))
    /\ (forall kept dropped,
          In kept rows ->
          In dropped (history_of "home" (pagina_historial (world (start history_backend)))) ->
          ~ In dropped rows ->
          (h_actualizado_en dropped <=? h_actualizado_en kept) = true).
Proof.
  apply (getPageHistory_returns_the_newest "home" (start history_backend)).
  exact history_backend_healthy.
Defined.

(** Both settings present and the address valid; the address not an http one;
    the key empty; the address not set. *)
Lemma load_module_needs_both_settings_witness :
  load_module checking_createClient (env_value (Some "https://proyecto.supabase.co"))
              (env_value (Some "clave-publica"))
    = Returned (mkClient (JStr "https://proyecto.supabase.co") (JStr "clave-publica")
                  client_options)
  /\ load_module checking_createClient (env_value (Some "proyecto"))
                 (env_value (Some "clave-publica"))
     = Thrown (new_Error "Invalid supabaseUrl: Must be a valid HTTP or HTTPS URL.")
  /\ load_module checking_createClient (env_value (Some "https://proyecto.supabase.co"))
                 (env_value (Some ""))
     = Thrown missing_configuration
  /\ load_module checking_createClient (env_value None) (env_value (Some "clave-publica"))
     = Thrown missing_configuration.
Proof.
  split; [| split; [| split]].
  - rewrite (proj1 (load_module_needs_both_settings checking_createClient
                      (Some "https://proyecto.supabase.co") (Some "clave-publica"))).
    + reflexivity.
    + exists "https://proyecto.supabase.co", "clave-publica".
      repeat split; discriminate.
  - rewrite (proj1 (load_module_needs_both_settings checking_createClient
                      (Some "proyecto") (Some "clave-publica"))).
    + reflexivity.
    + exists "proyecto", "clave-publica". repeat split; discriminate.
  - apply (proj2 (load_module_needs_both_settings checking_createClient
                    (Some "https://proyecto.supabase.co") (Some ""))).
    intros (u & k & Hu & Hk & Hu' & Hk'). inversion Hk. subst k. apply Hk'. reflexivity.
  - apply (proj2 (load_module_needs_both_settings checking_createClient
                    None (Some "clave-publica"))).
    intros (u & k & Hu & _). discriminate Hu.
Defined.

(** The upsert of an administrator's save: a request of [savePageContent],
    sent by a function that exists to change something. *)
Lemma requests_are_own_witness :
  may_send (SavePageContent (JStr "home") (JStr "<p>hi</p>"))
    (Query (contentAPI.save_query (JStr "home") (JStr "<p>hi</p>") (JStr "u-ana")
              "2024-05-01T10:00:00.000Z"))
  /\ mutating (SavePageContent (JStr "home") (JStr "<p>hi</p>")) = true.
Proof.
  destruct (requests_are_own reference (SavePageContent (JStr "home") (JStr "<p>hi</p>"))
              admin_backend
              (Query (contentAPI.save_query (JStr "home") (JStr "<p>hi</p>") (JStr "u-ana")
                        "2024-05-01T10:00:00.000Z")))
    as (Hmay & Hchange & _).
  - vm_compute. right. left. reflexivity.
  - split; [exact Hmay | apply Hchange; reflexivity].
Defined.

(** ** Saving without a session *)

(** C3, not met by the code: with nobody signed in,
    [getUser] comes back with the missing-session error, [authAPI.getUser]
    hands [data: null] to [savePageContent], and reading [user] of it
    throws: the caller gets that [TypeError], which is not the error "Usuario
    no autenticado", after both failures were logged.  Nothing is written:
    [getUser] is the only call and the platform is left as it was. *)
Theorem savePageContent_without_session (w : backend) (pageName content : jsval) :
  healthy w ->
  session w = None ->
  contentAPI.savePageContent reference pageName content (start w)
  = (Returned (outcome JNull (type_error JNull "user")),
     mkState w [AuthGetUser]
       [("Error en getUser:", session_missing);
        ("Error en savePageContent:", type_error JNull "user")])
  /\ type_error JNull "user" <> new_Error "Usuario no autenticado".
Proof.
  intros Hh Hs. split.
  - unfold_api. rewrite (reference_getUser w Hh).
    unfold current_user, session_problem. rewrite Hs. reflexivity.
  - discriminate.
Qed.

(** The scenario of the spec: nobody is signed in and a caller saves the page
    "home". *)
Lemma savePageContent_without_session_witness :
  contentAPI.savePageContent reference (JStr "home") (JStr "<p>hi</p>")
    (start guest_backend)
  = (Returned (outcome JNull (type_error JNull "user")),
     mkState guest_backend [AuthGetUser]
       [("Error en getUser:", session_missing);
        ("Error en savePageContent:", type_error JNull "user")])
  /\ type_error JNull "user" <> new_Error "Usuario no autenticado".
Proof.
  apply (savePageContent_without_session guest_backend (JStr "home") (JStr "<p>hi</p>")).
  - exact guest_backend_healthy.
  - reflexivity.
Defined.

(** ** Every throw is caught and returned *)

(** Each function is its [try] block under its [catch] block. *)
Lemma invoke_try_catch {W} (H : Host W) (op : operation) :
  invoke H op = try_catch (attempt H op) (rescue op).
Proof. destruct op; reflexivity. Qed.

(** What a [try] block returns is success-shaped. *)
Lemma attempt_success {W} (H : Host W) (op : operation) :
  ends_with success_shaped (attempt H op).
Proof. destruct op; simpl; unfold metadata_sent; ends. Qed.

(** What a [try] block throws is a populated value, unless it is the reason
    of a rejected call. *)
Lemma attempt_throws_populated {W} (H : Host W) (op : operation) (s : state W)
    (e : jsval) (s1 : state W) :
  attempt H op s = (Thrown e, s1) ->
  populated e = true \/ exists r w w', serve H r w = (Rejected e, w').
Proof.
  destruct op; unfold attempt, metadata_sent; unfold_api; crunch;
    intros E; inversion E; subst;
    first [ left; reflexivity
          | left; unfold populated;
            match goal with
            | T : truthy ?x = true |- context [nullish ?x] =>
                rewrite (truthy_not_nullish x T); reflexivity
            end
          | right; eauto ].
Qed.

(** C8: every exported function returns normally for every input and every
    answer of the host, and no invocation ends in a throw.  Whatever its
    [try] block throws (a rejected call, an error reported by the platform, a
    precondition failure made locally, a failed read) is caught by the
    function: it returns the record of its [catch] whose error is that very
    thrown value, with [data: null] (no [data] for [signOut]), after logging
    it under its own label; the thrown value is populated unless it is the
    reason of a rejected call.  What the [try] block returns is returned
    unchanged, with [error: null]. *)
Theorem invoke_never_throws {W} (H : Host W) (op : operation) (s : state W) :
  (exists v s', invoke H op s = (Returned v, s') /\ settled v s')
  /\ (forall e s', invoke H op s <> (Thrown e, s'))
  /\ (forall e s1,
        attempt H op s = (Thrown e, s1) ->
        invoke H op s = (Returned (failure_value op e), rescued op e s1)
        /\ prop (failure_value op e) "error" = e
        /\ nullish (prop (failure_value op e) "data") = true
        /\ (populated e = true \/ exists r w w', serve H r w = (Rejected e, w')))
  /\ (forall v s1,
        attempt H op s = (Returned v, s1) ->
        invoke H op s = (Returned v, s1) /\ prop v "error" = JNull).
Proof.
  destruct (invoke_settles H op s) as (v & s' & E & Hv).
  split; [| split; [| split]].
  - exists v, s'. split; assumption.
  - intros e s1 C. rewrite E in C. discriminate C.
  - intros e s1 Hthrow. split; [| split; [| split]].
    + rewrite invoke_try_catch. unfold try_catch. rewrite Hthrow. reflexivity.
    + destruct op; reflexivity.
    + destruct op; reflexivity.
    + exact (attempt_throws_populated H op s e s1 Hthrow).
  - intros v0 s1 Hret. split.
    + rewrite invoke_try_catch. unfold try_catch. rewrite Hret. reflexivity.
    + destruct (attempt_success H op s v0 s1 Hret) as [[d ->] | ->]; reflexivity.
Qed.

(** A call rejected by the host, a precondition failure made locally, and a
    failure outside a browser: each is returned as the error. *)
Lemma invoke_never_throws_witness :
  invoke reference GetUser (start offline_backend)
    = (Returned (outcome JNull fetch_failure),
       mkState offline_backend [AuthGetUser] [("Error en getUser:", fetch_failure)])
  /\ invoke reference GetUsers (start member_backend)
    = (Returned (outcome JNull (new_Error "No autorizado")),
       mkState member_backend
         [AuthGetUser; Query (adminAPI.role_query (JStr "u-beto"))]
         [("Error en getUsers:", new_Error "No autorizado")])
  /\ invoke reference (ResetPassword (JStr "ana@residuos.org")) (start server_backend)
    = (Returned (outcome JNull (reference_error "window")),
       mkState server_backend [] [("Error en resetPassword:", reference_error "window")]).
Proof.
  split; [| split].
  - apply (proj1 (proj2 (proj2 (invoke_never_throws reference GetUser
                                  (start offline_backend))))
             fetch_failure (mkState offline_backend [AuthGetUser] [])).
    reflexivity.
  - apply (proj1 (proj2 (proj2 (invoke_never_throws reference GetUsers
                                  (start member_backend))))
             (new_Error "No autorizado")
             (mkState member_backend
                [AuthGetUser; Query (adminAPI.role_query (JStr "u-beto"))] [])).
    reflexivity.
  - apply (proj1 (proj2 (proj2 (invoke_never_throws reference
                                  (ResetPassword (JStr "ana@residuos.org"))
                                  (start server_backend))))
             (reference_error "window") (mkState server_backend [] [])).
    reflexivity.
Defined.
